(** * plantNet server: session credential, role gate and account lifecycle

    A shallow embedding of [index.js]: the Express routes that read the
    session cookie or the [users] collection, with their middleware chains,
    over an explicit document store.  The remaining routes of the file
    never read the cookie and never reference [userCollection]; of these,
    [/plants], [/order] and [/] are modelled apart, as handlers without
    middleware, and [/plant/:id], [/create-payment-intent] and
    [/quantity-update/:id] are not part of this development.

    A request is a function from the store to a response and a new store:
    requests are taken one at a time, so the [await]s of one handler are not
    interleaved with another request's; [POST /user] is also given in its
    two steps, to follow two logins that overlap.  What [index.js] calls but does not
    define is either a parameter (the store's query matching, the reporting
    pipeline, [toISOString], [+]) or a small model written after the
    library's documentation ([jsonwebtoken], the driver's [$set] and
    [insertOne], Express cookies). *)

From Stdlib Require Import ZArith Ascii.
From stdpp Require Import base strings list.

Set Warnings "-register-all".

Local Open Scope Z_scope.
Local Open Scope string_scope.

(** ** JSON values and JavaScript objects *)

(** A JavaScript value as it travels through request bodies, token payloads
    and stored documents.  Numbers are the integers (counts and timestamps in
    seconds are the only numbers this slice computes).  An object is the list
    of its properties in insertion order. *)
Inductive value : Type :=
  | VUndefined
  | VNull
  | VBool (b : bool)
  | VNum (n : Z)
  | VStr (s : string)
  | VArr (xs : list value)
  | VObj (fields : list (string * value)).

Abbreviation obj := (list (string * value)).

Module Js.

(** [o[k]] on an object: the first property named [k]. *)
Fixpoint get (k : string) (o : obj) : option value :=
  match o with
  | [] => None
  | (k', v) :: o' => if String.eqb k k' then Some v else get k o'
  end.

(** [o[k] = v]: overwrite the property in place, or append a new one. *)
Fixpoint set (k : string) (v : value) (o : obj) : obj :=
  match o with
  | [] => [(k, v)]
  | (k', v') :: o' =>
      if String.eqb k k' then (k', v) :: o' else (k', v') :: set k v o'
  end.

(** [x?.k]: [undefined] when [x] is not an object or has no such property. *)
Definition prop (x : value) (k : string) : value :=
  match x with
  | VObj o => default VUndefined (get k o)
  | _ => VUndefined
  end.

(** [o.k] on an object that is known to be one. *)
Definition field (o : obj) (k : string) : value := default VUndefined (get k o).

(** [x === "s"] for a string literal [s]. *)
Definition is_string (x : value) (s : string) : bool :=
  match x with
  | VStr s' => String.eqb s' s
  | _ => false
  end.

(** [typeof x === 'number'] *)
Definition is_number (x : value) : bool :=
  match x with VNum _ => true | _ => false end.

(** [typeof x !== 'undefined'] *)
Definition is_defined (x : value) : bool :=
  match x with VUndefined => false | _ => true end.

(** Structural comparison of two values (property order included). *)
Fixpoint eqb (x y : value) {struct x} : bool :=
  match x, y with
  | VUndefined, VUndefined => true
  | VNull, VNull => true
  | VBool a, VBool b => Bool.eqb a b
  | VNum a, VNum b => Z.eqb a b
  | VStr a, VStr b => String.eqb a b
  | VArr xs, VArr ys =>
      (fix go (xs ys : list value) {struct xs} : bool :=
         match xs, ys with
         | [], [] => true
         | x :: xs', y :: ys' => eqb x y && go xs' ys'
         | _, _ => false
         end) xs ys
  | VObj xs, VObj ys =>
      (fix go (xs ys : obj) {struct xs} : bool :=
         match xs, ys with
         | [], [] => true
         | (k, x) :: xs', (k', y) :: ys' =>
             String.eqb k k' && eqb x y && go xs' ys'
         | _, _ => false
         end) xs ys
  | _, _ => false
  end.

Definition obj_eqb (a b : obj) : bool := eqb (VObj a) (VObj b).

End Js.

(** ** External collaborators *)

(** A query filter, as the routes build them. *)
Inductive filter : Type :=
  | FEq (path : string) (v : value)    (* [{path: v}] *)
  | FNe (path : string) (v : value).   (* [{path: {$ne: v}}] *)

(** The document store's query engine.  How MongoDB matches a filter against
    a document, and what the reporting pipeline of [/admin-stats] computes,
    is outside [index.js]; the routes are verified for every engine. *)
Class QueryEngine := {
  matches : filter → obj → bool;
  aggregate_by_day : list obj → list obj
}.

(** The JavaScript runtime: [Date.prototype.toISOString] on a time in
    milliseconds, and [+] on two values. *)
Class Runtime := {
  toISOString : Z → string;
  js_add : value → value → value
}.

(** ** The document store

    A collection is the list of its documents in insertion order, which is
    the order [findOne] and [updateOne] pick their first match in. *)

Module Mongo.

(** What the driver writes for a value: [undefined] is stored as [null]
    (the driver's default, [ignoreUndefined: false]). *)
Fixpoint bson (x : value) : value :=
  match x with
  | VUndefined => VNull
  | VArr xs => VArr (List.map bson xs)
  | VObj o => VObj (List.map (λ kv, (kv.1, bson kv.2)) o)
  | _ => x
  end.

Definition bson_doc (d : obj) : obj := List.map (λ kv, (kv.1, bson kv.2)) d.

(** The driver's [UpdateResult], reduced to its two counters. *)
Record update_result := { matchedCount : nat; modifiedCount : nat }.

(** [$set]: assign each listed field, in order. *)
Definition apply_set (upd : obj) (d : obj) : obj :=
  fold_left (λ d' kv, Js.set kv.1 (bson kv.2) d') upd d.

Section Collection.
Context `{QueryEngine}.

(** [collection.findOne(f)]: the first matching document, with its
    position in the collection. *)
Definition find_first (f : filter) (c : list obj) : option (nat * obj) :=
  list_find (λ d, matches f d = true) c.

Definition findOne (f : filter) (c : list obj) : option obj :=
  snd <$> find_first f c.

(** [collection.find(f).toArray()] *)
Definition find (f : filter) (c : list obj) : list obj :=
  List.filter (matches f) c.

(** [collection.countDocuments(f)] *)
Definition countDocuments (f : filter) (c : list obj) : nat :=
  length (find f c).

(** [collection.updateOne(f, {$set: upd})]: only the first matching
    document is rewritten. *)
Definition updateOne (f : filter) (upd : obj) (c : list obj)
  : list obj * update_result :=
  match find_first f c with
  | Some (i, d) =>
      let d' := apply_set upd d in
      (<[i := d']> c,
       {| matchedCount := 1;
          modifiedCount := if Js.obj_eqb d d' then 0%nat else 1%nat |})
  | None => (c, {| matchedCount := 0%nat; modifiedCount := 0%nat |})
  end.

(** [collection.insertOne(d)]: the document is appended.  The [_id] the
    store assigns to it is not represented. *)
Definition insertOne (d : obj) (c : list obj) : list obj :=
  c ++ [bson_doc d].

End Collection.

End Mongo.

Arguments Mongo.apply_set : simpl never.

(** ** jsonwebtoken

    [sign] and [verify] are modelled for the one way [index.js] calls each:
    HMAC under a string secret, [expiresIn: "365d"] when signing, no options
    when verifying. *)

(** The value of the [token] cookie.  A string either parses as a signed
    token, which carries a payload and was signed with some key, or it does
    not.  Signatures are ideal: a token verifies under a secret exactly when
    it was signed with that secret. *)
Inductive credential : Type :=
  | Malformed (s : string)
  | Jws (payload : value) (key : string).

Module Jwt.

(** [ms("365d") / 1000] *)
Definition expiresIn_365d : Z := 365 * 24 * 60 * 60.

Inductive sign_result : Type :=
  | Signed (t : credential)
  | SignError (msg : string).

Inductive verify_result : Type :=
  | Decoded (payload : value)
  | VerifyError (name : string).

(** A secret is usable when it is set and not the empty string. *)
Definition usable (secret : option string) : option string :=
  match secret with
  | Some s => if String.eqb s "" then None else Some s
  | None => None
  end.

(** A registered claim, when present, must be a number. *)
Definition claim_valid (payload : obj) (k : string) : bool :=
  match Js.get k payload with
  | Some v => Js.is_number v
  | None => true
  end.

(** [jwt.sign(payload, secret, {expiresIn: "365d"})] on an object payload,
    at clock reading [now] (milliseconds).  The payload is copied, [iat] is
    set to the payload's own non-zero [iat] or else to the current second,
    and [exp] to 365 days later.  A payload that already has [exp], or
    whose [iat], [exp] or [nbf] is not a number, is refused. *)
Definition sign (payload : obj) (secret : option string) (now : Z)
  : sign_result :=
  match usable secret with
  | None => SignError "secretOrPrivateKey must have a value"
  | Some key =>
      if negb (claim_valid payload "iat" && claim_valid payload "exp"
               && claim_valid payload "nbf")
      then SignError "invalid registered claim"
      else if Js.is_defined (Js.field payload "exp")
      then SignError "the payload already has an exp property"
      else
        let timestamp :=
          match Js.field payload "iat" with
          | VNum n => if Z.eqb n 0 then now / 1000 else n
          | _ => now / 1000
          end in
        let p1 := Js.set "iat" (VNum timestamp) payload in
        let p2 := Js.set "exp" (VNum (timestamp + expiresIn_365d)) p1 in
        Signed (Jws (VObj p2) key)
  end.

(** [jwt.verify(token, secret, callback)] at clock reading [now]: the
    callback receives either an error or the decoded payload. *)
Definition verify (t : credential) (secret : option string) (now : Z)
  : verify_result :=
  match t with
  | Malformed _ => VerifyError "JsonWebTokenError"
  | Jws payload key =>
      match usable secret with
      | None => VerifyError "JsonWebTokenError"
      | Some s =>
          if negb (String.eqb key s) then VerifyError "JsonWebTokenError"
          else
            let clockTimestamp := now / 1000 in
            let nbf := Js.prop payload "nbf" in
            let exp := Js.prop payload "exp" in
            if Js.is_defined nbf && negb (Js.is_number nbf)
            then VerifyError "JsonWebTokenError"
            else if match nbf with VNum n => Z.ltb clockTimestamp n | _ => false end
            then VerifyError "NotBeforeError"
            else if Js.is_defined exp && negb (Js.is_number exp)
            then VerifyError "JsonWebTokenError"
            else if match exp with VNum n => Z.leb n clockTimestamp | _ => false end
            then VerifyError "TokenExpiredError"
            else Decoded payload
      end
  end.

End Jwt.

(** ** Express: requests, responses, cookies *)

(** The options object passed to [res.cookie] and [res.clearCookie]; a field
    the call site leaves out is [None]. *)
Record cookie_options := {
  httpOnly : option bool;
  secure : option bool;
  sameSite : option string;
  maxAge : option Z
}.

(** [res.cookie(name, val, o)] sets the cookie; [res.clearCookie(name, o)]
    sets it to the empty value with an expiry in the past, under the
    attributes of [o]. *)
Inductive cookie_op : Type :=
  | res_cookie (name : string) (val : credential) (o : cookie_options)
  | res_clearCookie (name : string) (o : cookie_options).

(** What [res.send] is given. *)
Inductive reply : Type :=
  | Json (v : value)
  | InsertOneResult
  | UpdateResult (r : Mongo.update_result).

Record response := {
  status : nat;
  cookie : option cookie_op;
  sent : reply
}.

(** A request ends with a response sent by the route, or with an exception
    that nothing in [index.js] catches: the route then sends nothing, and
    what the client sees is left to Express. *)
Inductive outcome : Type :=
  | Responded (r : response)
  | Unhandled (err : string).

Inductive route : Type :=
  | POST_jwt
  | GET_logout
  | POST_add_plant
  | POST_user
  | GET_user_role (email : string)
  | GET_orders_customer (email : string)
  | GET_orders_seller (email : string)
  | GET_all_users
  | PATCH_user_role_update (email : string)
  | PATCH_became_seller_request (email : string)
  | GET_admin_stats.

(** An incoming request: the route with its path parameter, the [token]
    cookie if the client sent one, and the JSON object [express.json()]
    parsed the body to (the empty object for an empty body). *)
Record request := {
  target : route;
  cookies_token : option credential;
  body : obj
}.

(** The request object as the middleware chain sees it: [req.user] is
    [undefined] until [verifyToken] assigns it. *)
Record ctx := {
  req : request;
  user : value
}.

Record env := {
  NODE_ENV : option string;
  ACCESS_TOKEN_SECRET : option string
}.

(** The three collections of [plantdb]. *)
Record db := {
  users : list obj;
  plants : list obj;
  orders : list obj
}.

(** The successive readings of the system clock (milliseconds) while one
    request is handled: [clk 0] is the first [Date] read, [clk 1] the
    second, and so on. *)
Definition clock := nat → Z.

Definition middleware := db → ctx → ctx + response.
Definition handler := db → ctx → outcome * db.

(** [app.METHOD(path, m1, ..., mk, h)]: each middleware either calls
    [next()] or sends the response itself, which ends the chain. *)
Fixpoint run_chain (ms : list middleware) (h : handler) (s : db) (c : ctx)
  : outcome * db :=
  match ms with
  | [] => h s c
  | m :: ms' =>
      match m s c with
      | inl c' => run_chain ms' h s c'
      | inr r => (Responded r, s)
      end
  end.

Definition send (v : reply) : response :=
  {| status := 200; cookie := None; sent := v |}.

Definition send_status (code : nat) (v : reply) : response :=
  {| status := code; cookie := None; sent := v |}.

Definition message (m : string) : reply := Json (VObj [("message", VStr m)]).

Definition success : reply := Json (VObj [("success", VBool true)]).

(** [!token] on the cookie value: absent, or the empty string. *)
Definition falsy_token (t : option credential) : bool :=
  match t with
  | None => true
  | Some (Malformed s) => String.eqb s ""
  | Some (Jws _ _) => false
  end.

(** [process.env.NODE_ENV === "production"] *)
Definition production (e : env) : bool :=
  match NODE_ENV e with
  | Some s => String.eqb s "production"
  | None => false
  end.

(** ** Route registration *)

(** The three middleware functions of [index.js], by name. *)
Inductive guard : Type :=
  | VerifyToken
  | VerifyAdmin
  | VerifySeller.

(** The middleware each route is registered with, in order. *)
Definition guards (r : route) : list guard :=
  match r with
  | POST_jwt => []
  | GET_logout => []
  | POST_add_plant => [VerifyToken; VerifySeller]
  | POST_user => []
  | GET_user_role _ => []
  | GET_orders_customer _ => [VerifyToken]
  | GET_orders_seller _ => [VerifyToken; VerifySeller]
  | GET_all_users => [VerifyToken; VerifyAdmin]
  | PATCH_user_role_update _ => [VerifyToken; VerifyAdmin]
  | PATCH_became_seller_request _ => [VerifyToken]
  | GET_admin_stats => [VerifyToken; VerifyAdmin]
  end.

(** The role a guard demands, if it is a role check. *)
Definition required_role (g : guard) : option string :=
  match g with
  | VerifyToken => None
  | VerifyAdmin => Some "admin"
  | VerifySeller => Some "seller"
  end.

(** A route is role-gated when a role check is registered on it. *)
Definition role_gated (r : route) : bool :=
  existsb (λ g, bool_decide (is_Some (required_role g))) (guards r).

(** ** The routes of [index.js] *)

Section Server.
Context `{QueryEngine} `{Runtime}.
Variable e : env.
Variable clk : clock.

Import Mongo.

(** *** Middleware *)

Definition verifyToken : middleware := λ _ c,
  let token := cookies_token (req c) in
  if falsy_token token then
    inr (send_status 401 (message "unauthorized access"))
  else
    match token with
    | None => inr (send_status 401 (message "unauthorized access"))
    | Some t =>
        match Jwt.verify t (ACCESS_TOKEN_SECRET e) (clk 0%nat) with
        | Jwt.VerifyError _ =>
            inr (send_status 401 (message "unauthorized access"))
        | Jwt.Decoded decoded => inl {| req := req c; user := decoded |}
        end
    end.

Definition verifyAdmin : middleware := λ s c,
  let email := Js.prop (user c) "email" in
  match findOne (FEq "email" email) (users s) with
  | None => inr (send_status 403 (message "Admin only actions"))
  | Some u =>
      if negb (Js.is_string (Js.field u "role") "admin")
      then inr (send_status 403 (message "Admin only actions"))
      else inl c
  end.

Definition verifySeller : middleware := λ s c,
  let email := Js.prop (user c) "email" in
  match findOne (FEq "email" email) (users s) with
  | None => inr (send_status 403 (message "Seller only actions"))
  | Some u =>
      if negb (Js.is_string (Js.field u "role") "seller")
      then inr (send_status 403 (message "Seller only actions"))
      else inl c
  end.

(** *** Session endpoint *)

Definition login_cookie_options : cookie_options :=
  {| httpOnly := Some true;
     secure := Some (production e);
     sameSite := Some (if production e then "none" else "strict");
     maxAge := None |}.

Definition logout_cookie_options : cookie_options :=
  {| httpOnly := None;
     secure := Some (production e);
     sameSite := Some (if production e then "none" else "strict");
     maxAge := Some 0 |}.

(** [POST /jwt].  [jwt.sign] throws inside the [async] handler when it
    refuses the payload; nothing catches it. *)
Definition post_jwt : handler := λ s c,
  let email := body (req c) in
  match Jwt.sign email (ACCESS_TOKEN_SECRET e) (clk 0%nat) with
  | Jwt.SignError err => (Unhandled err, s)
  | Jwt.Signed token =>
      (Responded
         {| status := 200;
            cookie := Some (res_cookie "token" token login_cookie_options);
            sent := success |}, s)
  end.

(** [GET /logout].  Nothing in the [try] block throws, so its [catch]
    branch is never taken. *)
Definition get_logout : handler := λ s _,
  (Responded
     {| status := 200;
        cookie := Some (res_clearCookie "token" logout_cookie_options);
        sent := success |}, s).

(** *** Account lifecycle *)

(** [POST /user].  The three [new Date()] calls are the clock readings
    0, 1 and 2, in evaluation order. *)
Definition post_user : handler := λ s c,
  let userData := body (req c) in
  let userData := Js.set "role" (VStr "customer") userData in
  let userData := Js.set "created_at" (VStr (toISOString (clk 0%nat))) userData in
  let userData := Js.set "last_loggedIn" (VStr (toISOString (clk 1%nat))) userData in
  let query := FEq "email" (Js.field userData "email") in
  match findOne query (users s) with
  | Some _ =>
      let '(users', result) :=
        updateOne query [("last_loggedIn", VStr (toISOString (clk 2%nat)))]
          (users s) in
      (Responded (send (UpdateResult result)),
       {| users := users'; plants := plants s; orders := orders s |})
  | None =>
      (Responded (send InsertOneResult),
       {| users := insertOne userData (users s);
          plants := plants s; orders := orders s |})
  end.

(** [GET /user/role/:email] *)
Definition get_user_role (email : string) : handler := λ s _,
  match findOne (FEq "email" (VStr email)) (users s) with
  | None => (Responded (send_status 404 (message "User not Found")), s)
  | Some result =>
      (Responded (send (Json (VObj [("role", Js.field result "role")]))), s)
  end.

(** [PATCH /user/role/update/:email] *)
Definition patch_user_role_update (email : string) : handler := λ s c,
  let role := Js.field (body (req c)) "role" in
  let '(users', result) :=
    updateOne (FEq "email" (VStr email))
      [("role", role); ("status", VStr "verified")] (users s) in
  (Responded (send (UpdateResult result)),
   {| users := users'; plants := plants s; orders := orders s |}).

(** [PATCH /became-seller-request/:email] *)
Definition patch_became_seller_request (email : string) : handler := λ s _,
  let '(users', result) :=
    updateOne (FEq "email" (VStr email))
      [("status", VStr "requested")] (users s) in
  (Responded (send (UpdateResult result)),
   {| users := users'; plants := plants s; orders := orders s |}).

(** [GET /all-users] *)
Definition get_all_users : handler := λ s c,
  let result := find (FNe "email" (Js.prop (user c) "email")) (users s) in
  (Responded (send (Json (VArr (List.map VObj result)))), s).

(** *** Plants, orders and statistics *)

(** [POST /add-plant] *)
Definition post_add_plant : handler := λ s c,
  (Responded (send InsertOneResult),
   {| users := users s;
      plants := insertOne (body (req c)) (plants s);
      orders := orders s |}).

(** [GET /orders/customer/:email] *)
Definition get_orders_customer (email : string) : handler := λ s _,
  let result := find (FEq "customer.email" (VStr email)) (orders s) in
  (Responded (send (Json (VArr (List.map VObj result)))), s).

(** [GET /orders/seller/:email] *)
Definition get_orders_seller (email : string) : handler := λ s _,
  let result := find (FEq "seller.email" (VStr email)) (orders s) in
  (Responded (send (Json (VArr (List.map VObj result)))), s).

(** [GET /admin-stats] *)
Definition get_admin_stats : handler := λ s _,
  let totalAdmin := countDocuments (FEq "role" (VStr "admin")) (users s) in
  let totalUser := Z.of_nat (length (users s)) - Z.of_nat totalAdmin in
  let totalPlant := Z.of_nat (length (plants s)) in
  let totalOrder := Z.of_nat (length (orders s)) in
  let result := aggregate_by_day (orders s) in
  let barChartData :=
    List.map (λ data,
      VObj [("date", Js.field data "_id");
            ("revenew", Js.field data "revenew");
            ("order", Js.field data "order")]) result in
  let totalRevenew :=
    fold_left (λ sum data, js_add sum (Js.field data "revenew"))
      result (VNum 0) in
  (Responded (send (Json (VObj
     [("totalUser", VNum totalUser);
      ("totalPlant", VNum totalPlant);
      ("totalOrder", VNum totalOrder);
      ("totalRevenew", totalRevenew);
      ("barChartData", VArr barChartData)]))), s).

(** *** Routing *)

Definition use (g : guard) : middleware :=
  match g with
  | VerifyToken => verifyToken
  | VerifyAdmin => verifyAdmin
  | VerifySeller => verifySeller
  end.

Definition operation (r : route) : handler :=
  match r with
  | POST_jwt => post_jwt
  | GET_logout => get_logout
  | POST_add_plant => post_add_plant
  | POST_user => post_user
  | GET_user_role email => get_user_role email
  | GET_orders_customer email => get_orders_customer email
  | GET_orders_seller email => get_orders_seller email
  | GET_all_users => get_all_users
  | PATCH_user_role_update email => patch_user_role_update email
  | PATCH_became_seller_request email => patch_became_seller_request email
  | GET_admin_stats => get_admin_stats
  end.

(** The request object a chain starts from. *)
Definition incoming (rq : request) : ctx := {| req := rq; user := VUndefined |}.

(** One request against the store: the response (if any) and the store
    afterwards. *)
Definition serve (rq : request) (s : db) : outcome * db :=
  run_chain (use <$> guards (target rq)) (operation (target rq)) s
    (incoming rq).

End Server.

(** ** The handlers without middleware

    [GET /plants], [POST /order] and [GET /] are registered with a handler
    only; they read neither the cookie nor [users]. *)

(** [GET /plants]: [find()] without a filter is the whole collection. *)
Definition get_plants (s : db) : outcome * db :=
  (Responded (send (Json (VArr (List.map VObj (plants s))))), s).

(** [POST /order], on the request body. *)
Definition post_order (orderData : obj) (s : db) : outcome * db :=
  (Responded (send InsertOneResult),
   {| users := users s;
      plants := plants s;
      orders := Mongo.insertOne orderData (orders s) |}).

(** [GET /] *)
Definition get_root (s : db) : outcome * db :=
  (Responded (send (Json (VStr "Hello from plantNet Server.."))), s).

(** ** Notions the statements use *)

(** The 403 answer of a role check. *)
Definition forbidden (msg : string) : response :=
  send_status 403 (message msg).

(** The record a guard consults for the identity [verifyToken] attached. *)
Definition record_of `{QueryEngine} (s : db) (c : ctx) : option obj :=
  Mongo.findOne (FEq "email" (Js.prop (user c) "email")) (users s).

Definition role_of (d : obj) : option value := Js.get "role" d.

(** Every record of [c] is still there in [c'], at its place and with its
    role; whatever [c'] holds beyond them has role customer. *)
Definition roles_kept (c c' : list obj) : Prop :=
  ∃ kept new : list obj,
    c' = (kept ++ new)%list ∧
    role_of <$> kept = role_of <$> c ∧
    Forall (λ d, role_of d = Some (VStr "customer")) new.

(** [userData] of [POST /user] after its three assignments. *)
Definition stamped `{Runtime} (clk : clock) (b : obj) : obj :=
  Js.set "last_loggedIn" (VStr (toISOString (clk 1%nat)))
    (Js.set "created_at" (VStr (toISOString (clk 0%nat)))
       (Js.set "role" (VStr "customer") b)).

(** [POST /user] in its two steps, for logins that overlap.  The handler
    first awaits the lookup, on the store as it is then; it resumes on the
    store as it is by then, and what it does there depends on the store
    only through the answer the lookup gave. *)
Definition post_user_lookup `{QueryEngine} `{Runtime} (clk : clock)
  (b : obj) (s : db) : option obj :=
  Mongo.findOne (FEq "email" (Js.field (stamped clk b) "email")) (users s).

Definition post_user_resume `{QueryEngine} `{Runtime} (clk : clock)
  (b : obj) (userAlreadyExist : option obj) (s : db) : outcome * db :=
  let userData := stamped clk b in
  let query := FEq "email" (Js.field userData "email") in
  match userAlreadyExist with
  | Some _ =>
      let '(users', result) :=
        Mongo.updateOne query
          [("last_loggedIn", VStr (toISOString (clk 2%nat)))] (users s) in
      (Responded (send (UpdateResult result)),
       {| users := users'; plants := plants s; orders := orders s |})
  | None =>
      (Responded (send InsertOneResult),
       {| users := Mongo.insertOne userData (users s);
          plants := plants s; orders := orders s |})
  end.

(** The request went through the admin gate of
    [PATCH /user/role/update/:email]: its credential verifies, and the
    record stored for the credential's email has role admin. *)
Definition admin_approved `{QueryEngine} (e : env) (clk : clock)
  (rq : request) (s : db) : Prop :=
  ∃ email t decoded u,
    target rq = PATCH_user_role_update email ∧
    cookies_token rq = Some t ∧
    Jwt.verify t (ACCESS_TOKEN_SECRET e) (clk 0%nat) = Jwt.Decoded decoded ∧
    Mongo.findOne (FEq "email" (Js.prop decoded "email")) (users s) = Some u ∧
    Js.field u "role" = VStr "admin".

(** The attributes a [Set-Cookie] header carries for an options object: an
    option the call leaves out is an attribute that is not sent. *)
Definition attribute_profile (o : cookie_options)
  : bool * bool * option string :=
  (default false (httpOnly o), default false (secure o), sameSite o).





(** The 401 answer of [verifyToken]. *)
Definition unauthorized : response :=
  send_status 401 (message "unauthorized access").

(** The identity the [token] cookie of a request stands for: the payload
    [jwt.verify] decodes from it, if there is a cookie and it verifies. *)
Definition authenticated (e : env) (clk : clock) (rq : request)
  : option value :=
  match cookies_token rq with
  | Some t =>
      match Jwt.verify t (ACCESS_TOKEN_SECRET e) (clk 0%nat) with
      | Jwt.Decoded decoded => Some decoded
      | Jwt.VerifyError _ => None
      end
  | None => None
  end.

(** A route is token-guarded when [verifyToken] is registered on it. *)
Definition token_guarded (r : route) : bool :=
  existsb (λ g, match g with VerifyToken => true | _ => false end) (guards r).

(** The role a route demands of its caller, if it is role-gated. *)
Definition demanded_role (r : route) : option string :=
  head (omap required_role (guards r)).

(** The routes that are meant to read only: every [GET] route, and
    [POST /jwt]. *)
Definition reads_only (r : route) : bool :=
  match r with
  | POST_jwt | GET_logout | GET_user_role _ | GET_orders_customer _
  | GET_orders_seller _ | GET_all_users | GET_admin_stats => true
  | POST_add_plant | POST_user | PATCH_user_role_update _
  | PATCH_became_seller_request _ => false
  end.

(** The request went through the seller gate of [POST /add-plant]. *)
Definition seller_approved `{QueryEngine} (e : env) (clk : clock)
  (rq : request) (s : db) : Prop :=
  ∃ decoded u,
    target rq = POST_add_plant ∧
    authenticated e clk rq = Some decoded ∧
    Mongo.findOne (FEq "email" (Js.prop decoded "email")) (users s) = Some u ∧
    Js.field u "role" = VStr "seller".

(** The [email] of each record, in store order. *)
Definition emails (c : list obj) : list value :=
  (λ d, Js.field d "email") <$> c.

(** Field [k] of every record of [c] is what it was, at its place, in [c'],
    which holds at most one record more. *)
Definition field_kept (k : string) (c c' : list obj) : Prop :=
  ∃ new : list obj,
    (length new ≤ 1)%nat ∧
    Js.get k <$> c' = ((Js.get k <$> c) ++ (Js.get k <$> new))%list.

(** What the routes rely on in the store's matching of [{email: a}], for a
    string [a]: a document whose [email] is [a] matches. *)
Definition matches_own_email `{QueryEngine} : Prop :=
  ∀ (a : string) (d : obj),
    Js.get "email" d = Some (VStr a) → matches (FEq "email" (VStr a)) d = true.

(** Whether a document matches [{email: a}], for a string [a], is decided
    by its [email]. *)
Definition email_filter_reads_email `{QueryEngine} : Prop :=
  ∀ (a : string) (d d' : obj),
    Js.get "email" d = Js.get "email" d' →
    matches (FEq "email" (VStr a)) d = matches (FEq "email" (VStr a)) d'.

(** [{email: {$ne: a}}], for a string [a], matches the documents
    [{email: a}] does not. *)
Definition ne_negates_eq `{QueryEngine} : Prop :=
  ∀ (a : string) (d : obj),
    matches (FNe "email" (VStr a)) d
    = negb (matches (FEq "email" (VStr a)) d).

(** ** A reference platform

    One concrete query engine and runtime, to run the routes on example
    requests. *)

Module Reference.

(** The segments of a dotted field path. *)
Fixpoint segments (path : string) : list string :=
  match path with
  | EmptyString => [""]
  | String a rest =>
      if Ascii.eqb a (Ascii.ascii_of_nat 46) then "" :: segments rest
      else match segments rest with
           | seg :: segs => String a seg :: segs
           | [] => [String a ""]
           end
  end.

Fixpoint lookup_path (segs : list string) (x : value) : option value :=
  match segs with
  | [] => Some x
  | seg :: segs' =>
      match x with
      | VObj o => Js.get seg o ≫= lookup_path segs'
      | _ => None
      end
  end.

(** Equality match on a field: the stored value equals the queried one; a
    queried [null] (or [undefined]) also matches a missing field.  Query
    operators inside the queried value and array fields are not
    interpreted. *)
Definition field_equals (path : string) (v : value) (d : obj) : bool :=
  match lookup_path (segments path) (VObj d) with
  | Some x => Js.eqb x (Mongo.bson v)
  | None => Js.eqb VNull (Mongo.bson v)
  end.

(** The reporting pipeline groups nothing: exact on a store without
    orders, which is all the examples below use. *)
#[export] Instance engine : QueryEngine := {|
  matches f d :=
    match f with
    | FEq path v => field_equals path v d
    | FNe path v => negb (field_equals path v d)
    end;
  aggregate_by_day _ := []
|}.

(** [n] in decimal, on exactly [w] digits. *)
Fixpoint digits (w : nat) (n : Z) : string :=
  match w with
  | O => ""
  | S w' =>
      digits w' (n / 10)
        ++ String (Ascii.ascii_of_nat (48 + Z.to_nat (n mod 10))) ""
  end.

(** [new Date(ms).toISOString()] for the years 0000 to 9999. *)
Definition iso (ms : Z) : string :=
  let days := ms / 86400000 in
  let rest := ms mod 86400000 in
  let z := days + 719468 in
  let era := z / 146097 in
  let doe := z - era * 146097 in
  let yoe := (doe - doe / 1460 + doe / 36524 - doe / 146096) / 365 in
  let doy := doe - (365 * yoe + yoe / 4 - yoe / 100) in
  let mp := (5 * doy + 2) / 153 in
  let d := doy - (153 * mp + 2) / 5 + 1 in
  let m := if Z.ltb mp 10 then mp + 3 else mp - 9 in
  let y := yoe + era * 400 + (if Z.leb m 2 then 1 else 0) in
  digits 4 y ++ "-" ++ digits 2 m ++ "-" ++ digits 2 d ++ "T"
    ++ digits 2 (rest / 3600000) ++ ":"
    ++ digits 2 (rest / 60000 mod 60) ++ ":"
    ++ digits 2 (rest / 1000 mod 60) ++ "."
    ++ digits 3 (rest mod 1000) ++ "Z".

(** [+] on two numbers; other operands do not occur in the examples. *)
#[export] Instance runtime : Runtime := {|
  toISOString := iso;
  js_add x y :=
    match x, y with
    | VNum a, VNum b => VNum (a + b)
    | _, _ => VUndefined
    end
|}.

Definition dev : env :=
  {| NODE_ENV := None; ACCESS_TOKEN_SECRET := Some "s3cret" |}.

(** A clock that stands still at 2025-01-01T00:00:00.000Z. *)
Definition new_year : clock := λ _, 1735689600000.

Definition empty_db : db := {| users := []; plants := []; orders := [] |}.

End Reference.

(** ** Sample requests and stores *)

Module Samples.
Import Reference.

(** The payload [POST /jwt] signs for [{email}] under [new_year]. *)
Definition claims_for (email : string) : value :=
  VObj [("email", VStr email);
        ("iat", VNum 1735689600);
        ("exp", VNum 1767225600)].

Definition token_for (email : string) : credential :=
  Jws (claims_for email) "s3cret".

(** A record as [POST /user] creates it. *)
Definition alice : obj :=
  [("email", VStr "a@x.com");
   ("role", VStr "customer");
   ("created_at", VStr "2025-01-01T00:00:00.000Z");
   ("last_loggedIn", VStr "2025-01-01T00:00:00.000Z")].

Definition alice_requested : obj :=
  [("email", VStr "a@x.com");
   ("role", VStr "customer");
   ("created_at", VStr "2025-01-01T00:00:00.000Z");
   ("last_loggedIn", VStr "2025-01-01T00:00:00.000Z");
   ("status", VStr "requested")].

Definition only_alice : db :=
  {| users := [alice]; plants := []; orders := [] |}.

(** Ten seconds after [new_year], at every reading. *)
Definition later : clock := λ _, 1735689610000.

Definition login_as (email : string) : request :=
  {| target := POST_jwt; cookies_token := None;
     body := [("email", VStr email)] |}.

Definition as_user (email : string) (r : route) (b : obj) : request :=
  {| target := r; cookies_token := Some (token_for email); body := b |}.

Definition anonymous (r : route) (b : obj) : request :=
  {| target := r; cookies_token := None; body := b |}.

(** Records of an admin and of a seller. *)
Definition root : obj :=
  [("email", VStr "root@x.com"); ("role", VStr "admin")].

Definition sam : obj :=
  [("email", VStr "sam@x.com"); ("role", VStr "seller")].

Definition staffed : db :=
  {| users := [root; sam; alice]; plants := []; orders := [] |}.

(** A year and a day after [new_year]. *)
Definition next_year : clock := λ _, 1735689600000 + 366 * 86400000.

End Samples.

(** ** Facts about object properties *)

Lemma get_set_eq k v o : Js.get k (Js.set k v o) = Some v.
Proof.
  induction o as [|[k' v'] o IH]; simpl.
  - by rewrite String.eqb_refl.
  - destruct (String.eqb k k') eqn:E; simpl; rewrite E; [done | exact IH].
Qed.

Lemma get_set_ne k k' v o : k ≠ k' → Js.get k' (Js.set k v o) = Js.get k' o.
Proof.
  intros Hne. induction o as [|[k0 v0] o IH]; simpl.
  - destruct (String.eqb k' k) eqn:E; [|done].
    apply String.eqb_eq in E. congruence.
  - destruct (String.eqb k k0) eqn:E; simpl.
    + apply String.eqb_eq in E. subst k0.
      destruct (String.eqb k' k) eqn:E'; [|done].
      apply String.eqb_eq in E'. congruence.
    + by rewrite IH.
Qed.

(** ** Documents under the store's operations *)

Lemma get_bson_doc k d : Js.get k (Mongo.bson_doc d) = Mongo.bson <$> Js.get k d.
Proof.
  induction d as [|[k' v] d IH]; simpl; [done|].
  by destruct (String.eqb k k').
Qed.

Lemma get_apply_set_other upd d k :
  k ∉ upd.*1 → Js.get k (Mongo.apply_set upd d) = Js.get k d.
Proof.
  unfold Mongo.apply_set. revert d.
  induction upd as [|[k' v] upd IH]; intros d Hk; simpl; [done|].
  rewrite fmap_cons in Hk. apply not_elem_of_cons in Hk as [Hne Hk].
  rewrite IH by done. simpl in *. apply get_set_ne. congruence.
Qed.

Lemma get_apply_set_last upd k v d :
  Js.get k (Mongo.apply_set (upd ++ [(k, v)]) d) = Some (Mongo.bson v).
Proof.
  unfold Mongo.apply_set. rewrite fold_left_app. simpl. apply get_set_eq.
Qed.

Section StoreFacts.
Context `{QueryEngine}.
Import Mongo.

Lemma findOne_find_first f c d :
  findOne f c = Some d ↔ ∃ i, find_first f c = Some (i, d).
Proof.
  unfold findOne. split.
  - destruct (find_first f c) as [[i d']|]; simpl; [|done].
    intros [= ->]. by exists i.
  - by intros [i ->].
Qed.

Lemma findOne_find_first_none f c :
  findOne f c = None → find_first f c = None.
Proof. unfold findOne. by destruct (find_first f c). Qed.

Lemma find_first_lookup f c i d :
  find_first f c = Some (i, d) → c !! i = Some d ∧ matches f d = true.
Proof. unfold find_first. by intros (? & ? & _)%list_find_Some. Qed.

End StoreFacts.

(** ** The role gate *)

Section RoleGate.
Context `{QueryEngine} `{Runtime}.
Variable e : env.
Variable clk : clock.

(** A credential that verifies passes [verifyToken], which attaches the
    decoded payload to the request. *)
Lemma verifyToken_pass s rq u t decoded :
  cookies_token rq = Some t →
  Jwt.verify t (ACCESS_TOKEN_SECRET e) (clk 0%nat) = Jwt.Decoded decoded →
  verifyToken e clk s {| req := rq; user := u |}
    = inl {| req := rq; user := decoded |}.
Proof.
  intros Ht Hv. unfold verifyToken. cbn [req cookies_token]. rewrite Ht.
  destruct t as [bad|payload key]; [discriminate Hv|].
  cbn [falsy_token]. by rewrite Hv.
Qed.

Lemma verifyAdmin_no_record s c :
  Mongo.findOne (FEq "email" (Js.prop (user c) "email")) (users s) = None →
  verifyAdmin s c = inr (forbidden "Admin only actions").
Proof. unfold verifyAdmin. by intros ->. Qed.

Lemma verifySeller_no_record s c :
  Mongo.findOne (FEq "email" (Js.prop (user c) "email")) (users s) = None →
  verifySeller s c = inr (forbidden "Seller only actions").
Proof. unfold verifySeller. by intros ->. Qed.

(** C2: a request whose credential verifies, but whose email has no stored
    user record, is answered 403 by every role-gated route.  The store is
    left as it was, and the answer is the same whatever handler is
    registered behind the guards: the operation is not reached. *)
Theorem role_gated_route_forbids_unknown_email rq s t decoded :
  role_gated (target rq) = true →
  cookies_token rq = Some t →
  Jwt.verify t (ACCESS_TOKEN_SECRET e) (clk 0%nat) = Jwt.Decoded decoded →
  Mongo.findOne (FEq "email" (Js.prop decoded "email")) (users s) = None →
  ∃ msg,
    serve e clk rq s = (Responded (forbidden msg), s) ∧
    ∀ h : handler,
      run_chain (use e clk <$> guards (target rq)) h s (incoming rq)
        = (Responded (forbidden msg), s).
Proof.
  intros Hgated Ht Hv Hnone. unfold serve.
  destruct (target rq); try discriminate Hgated; simpl;
    unfold incoming; rewrite (verifyToken_pass _ _ _ _ _ Ht Hv);
    first [ rewrite verifyAdmin_no_record by exact Hnone
          | rewrite verifySeller_no_record by exact Hnone ];
    eauto.
Qed.

(** C3 (as the code has it): a role check answers 403 when the identity
    has no record, answers 403 when the record's role is not the demanded
    one, and otherwise calls [next()] with the request untouched.  It
    never answers 404. *)
Theorem role_check_forbidden_or_next g role s c :
  required_role g = Some role →
  match record_of s c with
  | None =>
      ∃ msg, use e clk g s c = inr (forbidden msg)
  | Some u =>
      if Js.is_string (Js.field u "role") role
      then use e clk g s c = inl c
      else ∃ msg, use e clk g s c = inr (forbidden msg)
  end.
Proof.
  unfold record_of.
  destruct g; intros [= <-]; simpl;
    [unfold verifyAdmin | unfold verifySeller];
    destruct (Mongo.findOne _ _) as [u|]; eauto;
    destruct (Js.is_string _ _); simpl; eauto.
Qed.

End RoleGate.

(** ** Account lifecycle *)

(** Rewriting a document without touching its role leaves the roles of the
    collection as they were. *)
Lemma roles_insert_same (c : list obj) i d d' :
  c !! i = Some d → role_of d' = role_of d →
  role_of <$> <[i := d']> c = role_of <$> c.
Proof.
  intros Hi Hrole. rewrite list_fmap_insert, Hrole.
  apply list_insert_id. by rewrite list_lookup_fmap, Hi.
Qed.

Section Lifecycle.
Context `{QueryEngine} `{Runtime}.
Variable e : env.
Variable clk : clock.

Import Mongo.

Lemma stamped_email b :
  Js.field (stamped clk b) "email" = Js.field b "email".
Proof. unfold Js.field, stamped. by rewrite !get_set_ne. Qed.

Lemma stamped_role b :
  Js.get "role" (stamped clk b) = Some (VStr "customer").
Proof. unfold stamped. rewrite !get_set_ne by done. apply get_set_eq. Qed.

Lemma stamped_created_at b :
  Js.get "created_at" (stamped clk b) = Some (VStr (toISOString (clk 0%nat))).
Proof. unfold stamped. rewrite get_set_ne by done. apply get_set_eq. Qed.

Lemma stamped_last_loggedIn b :
  Js.get "last_loggedIn" (stamped clk b) = Some (VStr (toISOString (clk 1%nat))).
Proof. apply get_set_eq. Qed.

Lemma stamped_other b k :
  k ≠ "role" → k ≠ "created_at" → k ≠ "last_loggedIn" →
  Js.get k (stamped clk b) = Js.get k b.
Proof. intros. unfold stamped. by rewrite !get_set_ne. Qed.

(** [POST /user] for an email without a record: the stamped body is
    inserted. *)
Lemma post_user_inserts rq s :
  target rq = POST_user →
  findOne (FEq "email" (Js.field (body rq) "email")) (users s) = None →
  serve e clk rq s =
    (Responded (send InsertOneResult),
     {| users := users s ++ [bson_doc (stamped clk (body rq))];
        plants := plants s; orders := orders s |}).
Proof.
  intros Hr Hnone. unfold serve. rewrite Hr. cbn [guards fmap list_fmap run_chain operation].
  unfold post_user. cbn [incoming req].
  fold (stamped clk (body rq)). rewrite stamped_email, Hnone. done.
Qed.

(** [POST /user] for an email with a record: the record [findOne] returns
    gets a new [last_loggedIn]. *)
Lemma post_user_updates rq s d :
  target rq = POST_user →
  findOne (FEq "email" (Js.field (body rq) "email")) (users s) = Some d →
  ∃ i result,
    users s !! i = Some d ∧
    serve e clk rq s =
      (Responded (send (UpdateResult result)),
       {| users :=
            <[i := apply_set
                     [("last_loggedIn", VStr (toISOString (clk 2%nat)))] d]>
              (users s);
          plants := plants s; orders := orders s |}).
Proof.
  intros Hr Hsome. pose proof Hsome as Hfound.
  apply findOne_find_first in Hfound as [i Hi].
  destruct (find_first_lookup _ _ _ _ Hi) as [Hlook _].
  unfold serve. rewrite Hr. cbn [guards fmap list_fmap run_chain operation].
  unfold post_user. cbn [incoming req].
  fold (stamped clk (body rq)). rewrite stamped_email, Hsome.
  unfold updateOne. rewrite Hi. eauto.
Qed.

End Lifecycle.

Section LifecycleClaims.
Context `{QueryEngine} `{Runtime}.
Variable e : env.
Variable clk : clock.

Import Mongo.

(** C4 (as the code has it): for an email without a record, [POST /user]
    creates one record.  Its role is customer; its [created_at] and
    [last_loggedIn] are the clock readings taken when each is assigned; its
    status, like every other field, is the one the request body carries,
    and is absent when the body has none. *)
Theorem post_user_creates_customer_record rq s :
  target rq = POST_user →
  findOne (FEq "email" (Js.field (body rq) "email")) (users s) = None →
  ∃ record,
    serve e clk rq s =
      (Responded (send InsertOneResult),
       {| users := users s ++ [record];
          plants := plants s; orders := orders s |}) ∧
    Js.get "role" record = Some (VStr "customer") ∧
    Js.get "created_at" record = Some (VStr (toISOString (clk 0%nat))) ∧
    Js.get "last_loggedIn" record = Some (VStr (toISOString (clk 1%nat))) ∧
    Js.get "status" record = bson <$> Js.get "status" (body rq) ∧
    ∀ k, k ≠ "role" → k ≠ "created_at" → k ≠ "last_loggedIn" →
         Js.get k record = bson <$> Js.get k (body rq).
Proof.
  intros Hr Hnone. exists (bson_doc (stamped clk (body rq))).
  split; [by apply post_user_inserts|].
  rewrite !get_bson_doc.
  rewrite stamped_role, stamped_created_at, stamped_last_loggedIn.
  rewrite stamped_other by done.
  repeat split; try done.
  intros k ? ? ?. by rewrite get_bson_doc, stamped_other.
Qed.

(** C5: for an email that has a record, [POST /user] rewrites that record
    only, and in it only [last_loggedIn]: role, status, [created_at] and
    every other field keep their values, and so does every other record
    of the store. *)
Theorem post_user_existing_updates_last_loggedIn_only rq s d :
  target rq = POST_user →
  findOne (FEq "email" (Js.field (body rq) "email")) (users s) = Some d →
  ∃ i d' result,
    users s !! i = Some d ∧
    serve e clk rq s =
      (Responded (send (UpdateResult result)),
       {| users := <[i := d']> (users s);
          plants := plants s; orders := orders s |}) ∧
    Js.get "last_loggedIn" d' = Some (VStr (toISOString (clk 2%nat))) ∧
    ∀ k, k ≠ "last_loggedIn" → Js.get k d' = Js.get k d.
Proof.
  intros Hr Hsome.
  destruct (post_user_updates e clk rq s d Hr Hsome) as (i & result & Hi & Hserve).
  eexists i, _, result.
  split; [done|]. split; [exact Hserve|]. split.
  - apply (get_apply_set_last []).
  - intros k Hk. apply get_apply_set_other.
    simpl. by rewrite list_elem_of_singleton.
Qed.

(** C10: whatever the request body says, and whatever role it claims, a
    record that [POST /user] creates has role customer. *)
Theorem post_user_never_trusts_client_role rq s :
  target rq = POST_user →
  findOne (FEq "email" (Js.field (body rq) "email")) (users s) = None →
  ∃ record,
    users (serve e clk rq s).2 = (users s ++ [record])%list ∧
    Js.field record "role" = VStr "customer".
Proof.
  intros Hr Hnone. exists (bson_doc (stamped clk (body rq))).
  rewrite post_user_inserts by done. split; [done|].
  unfold Js.field. by rewrite get_bson_doc, stamped_role.
Qed.

(** C1 (as the code has it): [PATCH /became-seller-request/:email] with a
    credential that verifies answers 200 whatever email the credential
    carries.  It sets status to requested on the first record whose email
    matches the path, keeps that record's other fields and all other
    records, and changes nothing when no record matches. *)
Theorem seller_request_for_any_verified_caller rq s email t decoded :
  target rq = PATCH_became_seller_request email →
  cookies_token rq = Some t →
  Jwt.verify t (ACCESS_TOKEN_SECRET e) (clk 0%nat) = Jwt.Decoded decoded →
  ∃ result users',
    serve e clk rq s =
      (Responded (send (UpdateResult result)),
       {| users := users'; plants := plants s; orders := orders s |}) ∧
    match findOne (FEq "email" (VStr email)) (users s) with
    | Some d =>
        ∃ i d', users s !! i = Some d ∧
                users' = <[i := d']> (users s) ∧
                Js.get "status" d' = Some (VStr "requested") ∧
                ∀ k, k ≠ "status" → Js.get k d' = Js.get k d
    | None => users' = users s
    end.
Proof.
  intros Hr Ht Hv. unfold serve. rewrite Hr.
  cbn [guards fmap list_fmap run_chain operation use]. unfold incoming.
  rewrite (verifyToken_pass e clk s rq VUndefined t decoded Ht Hv).
  unfold patch_became_seller_request, findOne, updateOne.
  destruct (find_first _ _) as [[i d]|] eqn:Hfind; simpl.
  - eexists _, _. split; [reflexivity|].
    destruct (find_first_lookup _ _ _ _ Hfind) as [Hi _].
    eexists i, _. split; [done|]. split; [reflexivity|]. split.
    + apply (get_apply_set_last []).
    + intros k Hk. apply get_apply_set_other.
      simpl. by rewrite list_elem_of_singleton.
  - eexists _, _. split; reflexivity.
Qed.

End LifecycleClaims.

(** ** Who can change a role *)

Lemma roles_kept_same c c' : role_of <$> c' = role_of <$> c → roles_kept c c'.
Proof.
  intros Hroles. exists c', []. by rewrite app_nil_r.
Qed.

Lemma is_string_true x s : Js.is_string x s = true → x = VStr s.
Proof.
  destruct x; simpl; try discriminate.
  by intros ->%String.eqb_eq.
Qed.

Lemma run_chain_stops_or_runs ms h s c :
  (∃ r, run_chain ms h s c = (Responded r, s)) ∨
  (∃ c', run_chain ms h s c = h s c').
Proof.
  revert c. induction ms as [|m ms IH]; intros c; simpl.
  - right. by exists c.
  - destruct (m s c) as [c'|r]; [apply IH | left; by exists r].
Qed.

Section RoleChanges.
Context `{QueryEngine} `{Runtime}.
Variable e : env.
Variable clk : clock.

Import Mongo.

Lemma verifyToken_inv s c c' :
  verifyToken e clk s c = inl c' →
  ∃ t decoded,
    cookies_token (req c) = Some t ∧
    Jwt.verify t (ACCESS_TOKEN_SECRET e) (clk 0%nat) = Jwt.Decoded decoded ∧
    c' = {| req := req c; user := decoded |}.
Proof.
  unfold verifyToken.
  destruct (falsy_token _); [discriminate|].
  destruct (cookies_token (req c)) as [t|]; [|discriminate].
  destruct (Jwt.verify t _ _) as [decoded|] eqn:Hv; [|discriminate].
  intros [= <-]. by exists t, decoded.
Qed.

Lemma verifyAdmin_inv s c c' :
  verifyAdmin s c = inl c' →
  c' = c ∧
  ∃ u, findOne (FEq "email" (Js.prop (user c) "email")) (users s) = Some u ∧
       Js.field u "role" = VStr "admin".
Proof.
  unfold verifyAdmin.
  destruct (findOne _ _) as [u|]; [|discriminate].
  destruct (Js.is_string _ _) eqn:Hrole; simpl; [|discriminate].
  intros [= <-]. split; [done|]. exists u. split; [done|].
  by apply is_string_true.
Qed.

Lemma updateOne_keeps_roles f upd c :
  "role" ∉ upd.*1 → role_of <$> (updateOne f upd c).1 = role_of <$> c.
Proof.
  intros Hupd. unfold updateOne.
  destruct (find_first f c) as [[i d]|] eqn:Hfind; simpl; [|done].
  destruct (find_first_lookup _ _ _ _ Hfind) as [Hi _].
  apply (roles_insert_same _ _ d); [done|].
  by apply get_apply_set_other.
Qed.

(** The routes other than the three that write to [users] leave the
    collection as it is. *)
Lemma operation_keeps_users r s c :
  r ≠ POST_user →
  (∀ email, r ≠ PATCH_user_role_update email) →
  (∀ email, r ≠ PATCH_became_seller_request email) →
  users (operation e clk r s c).2 = users s.
Proof.
  intros H1 H2 H3. destruct r; simpl; try done.
  - unfold post_jwt. by destruct (Jwt.sign _ _ _).
  - unfold get_user_role. by destruct (findOne _ _).
  - by destruct (H2 email).
  - by destruct (H3 email).
Qed.

(** C7: after any request, either every record still has the role it had
    and any record created by the request has role customer, or the
    request was a role update that passed the admin gate. *)
Theorem role_changes_only_by_admin_update rq s :
  roles_kept (users s) (users (serve e clk rq s).2) ∨ admin_approved e clk rq s.
Proof.
  destruct (target rq) eqn:Hr.
  4: { (* POST /user *)
    left.
    destruct (findOne (FEq "email" (Js.field (body rq) "email")) (users s))
      as [d|] eqn:Hfind.
    - destruct (post_user_updates e clk rq s d Hr Hfind)
        as (i & result & Hi & ->). simpl.
      apply roles_kept_same, (roles_insert_same _ _ d); [done|].
      apply get_apply_set_other. simpl. by rewrite list_elem_of_singleton.
    - rewrite (post_user_inserts e clk rq s Hr Hfind). simpl.
      exists (users s), [bson_doc (stamped clk (body rq))].
      split; [done|]. split; [done|].
      apply Forall_singleton. unfold role_of.
      by rewrite get_bson_doc, stamped_role. }
  8: { (* PATCH /user/role/update/:email *)
    unfold serve. rewrite Hr.
    cbn [guards fmap list_fmap run_chain use operation].
    destruct (verifyToken e clk s (incoming rq)) as [c1|r1] eqn:Hvt;
      [|left; by apply roles_kept_same].
    destruct (verifyAdmin s c1) as [c2|r2] eqn:Hva;
      [|left; by apply roles_kept_same].
    right.
    apply verifyToken_inv in Hvt as (t & decoded & Ht & Hv & ->).
    apply verifyAdmin_inv in Hva as (_ & u & Hu & Hrole).
    by exists email, t, decoded, u. }
  8: { (* PATCH /became-seller-request/:email *)
    left. unfold serve. rewrite Hr.
    destruct (run_chain_stops_or_runs
                (use e clk <$> guards (PATCH_became_seller_request email))
                (operation e clk (PATCH_became_seller_request email))
                s (incoming rq)) as [[r ->]|[c' ->]];
      [by apply roles_kept_same|].
    simpl. unfold patch_became_seller_request.
    pose proof (updateOne_keeps_roles (FEq "email" (VStr email))
                  [("status", VStr "requested")] (users s)) as Hkeep.
    destruct (updateOne _ _ _) as [users' result]. simpl in *.
    apply roles_kept_same, Hkeep. by rewrite list_elem_of_singleton. }
  all: left; unfold serve; rewrite Hr;
    match goal with
    | |- context [run_chain ?ms ?h ?s0 ?c] =>
        destruct (run_chain_stops_or_runs ms h s0 c) as [[r ->]|[c' ->]]
    end;
    [by apply roles_kept_same|];
    apply roles_kept_same; f_equal; by apply operation_keeps_users.
Qed.

End RoleChanges.

(** ** Session endpoint *)




Section Session.
Context `{QueryEngine} `{Runtime}.
Variable e : env.
Variable clk : clock.


(** C6 (as the code has it): the credential [POST /jwt] issues for
    [{email: a}] passes [verifyToken] until it expires, 365 days after
    issuance, and the identity it yields is [{email: a}] with the issuance
    time [iat] and the expiry [exp] added to it. *)
Theorem issued_credential_verifies_with_iat_exp (a : string) key tok s :
  Jwt.usable (ACCESS_TOKEN_SECRET e) = Some key →
  ∃ t,
    serve e clk
      {| target := POST_jwt; cookies_token := tok;
         body := [("email", VStr a)] |} s
    = (Responded
         {| status := 200;
            cookie := Some (res_cookie "token" t (login_cookie_options e));
            sent := success |}, s) ∧
    ∀ (clk' : clock) (rq' : request) (s' : db),
      cookies_token rq' = Some t →
      clk' 0%nat / 1000 < clk 0%nat / 1000 + Jwt.expiresIn_365d →
      verifyToken e clk' s' (incoming rq') =
        inl {| req := rq';
               user := VObj [("email", VStr a);
                             ("iat", VNum (clk 0%nat / 1000));
                             ("exp", VNum (clk 0%nat / 1000
                                           + Jwt.expiresIn_365d))] |}.
Proof.
  intros Hkey. unfold serve. simpl. unfold post_jwt. simpl.
  unfold Jwt.sign. rewrite Hkey. simpl.
  eexists. split; [reflexivity|].
  intros clk' rq' s' Ht Hfresh.
  unfold incoming. eapply verifyToken_pass; [exact Ht|].
  unfold Jwt.verify. rewrite Hkey, String.eqb_refl. simpl.
  destruct (Z.leb_spec (clk 0%nat / 1000 + Jwt.expiresIn_365d)
              (clk' 0%nat / 1000)); [lia|done].
Qed.

(** C8 (what the code does): [GET /logout] clears the [token] cookie with
    the [secure] and [sameSite] values of the login cookie, but without
    [httpOnly], which the login cookie sets: the two attribute profiles
    differ. *)
Theorem logout_clears_without_httpOnly tok b s :
  ∃ o,
    serve e clk {| target := GET_logout; cookies_token := tok; body := b |} s
    = (Responded
         {| status := 200;
            cookie := Some (res_clearCookie "token" o);
            sent := success |}, s) ∧
    maxAge o = Some 0 ∧
    secure o = secure (login_cookie_options e) ∧
    sameSite o = sameSite (login_cookie_options e) ∧
    httpOnly o = None ∧
    httpOnly (login_cookie_options e) = Some true ∧
    attribute_profile o ≠ attribute_profile (login_cookie_options e).
Proof.
  exists (logout_cookie_options e). repeat split. discriminate.
Qed.

End Session.

(** ** Worked requests *)

Section Examples.
Import Reference Samples.

(** C2 on an example: a verified credential for an email without a record
    is answered 403 by [GET /all-users]. *)
Lemma unknown_email_forbidden_on_all_users :
  ∃ msg,
    serve dev new_year (as_user "ghost@x.com" GET_all_users []) only_alice
      = (Responded (forbidden msg), only_alice) ∧
    ∀ h : handler,
      run_chain (use dev new_year <$> guards GET_all_users) h only_alice
        (incoming (as_user "ghost@x.com" GET_all_users []))
      = (Responded (forbidden msg), only_alice).
Proof.
  apply (role_gated_route_forbids_unknown_email dev new_year
           (as_user "ghost@x.com" GET_all_users []) only_alice
           (token_for "ghost@x.com") (claims_for "ghost@x.com"));
    reflexivity.
Defined.

(** C3, the claim refuted: for an identity without a record the admin
    check answers 403 Forbidden, not 404 NotFound. *)
Lemma role_check_without_record_answers_403 :
  let c := {| req := as_user "ghost@x.com" GET_all_users [];
              user := claims_for "ghost@x.com" |} in
  record_of only_alice c = None ∧
  ∃ r, verifyAdmin only_alice c = inr r ∧ status r = 403%nat ∧
       status r ≠ 404%nat.
Proof.
  split; [reflexivity|]. eexists. split; [reflexivity|]. split; [done|].
  discriminate.
Qed.

(** C3 on an example: the seller check lets a customer's identity
    through to nothing but a 403. *)
Lemma role_check_on_customer_record :
  ∃ msg,
    verifySeller only_alice
      {| req := as_user "a@x.com" POST_add_plant [];
         user := claims_for "a@x.com" |}
    = inr (forbidden msg).
Proof.
  exact (role_check_forbidden_or_next dev new_year VerifySeller "seller"
           only_alice
           {| req := as_user "a@x.com" POST_add_plant [];
              user := claims_for "a@x.com" |} eq_refl).
Defined.

(** C1, the claim refuted: a caller whose credential names b@x.com asks
    for a@x.com's promotion; the request is answered 200, not 403, and
    a@x.com's record now has status requested. *)
Lemma cross_account_seller_request_succeeds :
  let rq := as_user "b@x.com" (PATCH_became_seller_request "a@x.com") [] in
  Jwt.verify (token_for "b@x.com") (ACCESS_TOKEN_SECRET dev) (new_year 0%nat)
    = Jwt.Decoded (claims_for "b@x.com") ∧
  Js.prop (claims_for "b@x.com") "email" ≠ VStr "a@x.com" ∧
  serve dev new_year rq only_alice =
    (Responded
       (send (UpdateResult
                {| Mongo.matchedCount := 1; Mongo.modifiedCount := 1 |})),
     {| users := [alice_requested]; plants := []; orders := [] |}).
Proof. split; [reflexivity|]. split; [discriminate|reflexivity]. Qed.

(** C1 on the same example. *)
Lemma seller_request_by_another_caller :
  ∃ result users',
    serve dev new_year
      (as_user "b@x.com" (PATCH_became_seller_request "a@x.com") [])
      only_alice
    = (Responded (send (UpdateResult result)),
       {| users := users'; plants := []; orders := [] |}) ∧
    ∃ i d', users only_alice !! i = Some alice ∧
            users' = <[i := d']> (users only_alice) ∧
            Js.get "status" d' = Some (VStr "requested") ∧
            ∀ k, k ≠ "status" → Js.get k d' = Js.get k alice.
Proof.
  exact (seller_request_for_any_verified_caller dev new_year
           (as_user "b@x.com" (PATCH_became_seller_request "a@x.com") [])
           only_alice "a@x.com" (token_for "b@x.com") (claims_for "b@x.com")
           eq_refl eq_refl eq_refl).
Defined.

(** C4, the claim refuted: a first login whose body carries
    [status: "verified"] creates a record with that status. *)
Lemma new_record_keeps_client_status :
  let b := [("email", VStr "a@x.com"); ("status", VStr "verified")] in
  Mongo.findOne (FEq "email" (Js.field b "email")) (users empty_db) = None ∧
  ∃ record,
    users (serve dev new_year (anonymous POST_user b) empty_db).2 = [record] ∧
    Js.get "status" record = Some (VStr "verified").
Proof. split; [reflexivity|]. eexists. split; reflexivity. Qed.

(** C4 on an example: a first login with an email only. *)
Lemma first_login_creates_alice :
  ∃ record,
    serve dev new_year (anonymous POST_user [("email", VStr "a@x.com")])
      empty_db
    = (Responded (send InsertOneResult),
       {| users := [] ++ [record]; plants := []; orders := [] |}) ∧
    Js.get "role" record = Some (VStr "customer") ∧
    Js.get "created_at" record = Some (VStr "2025-01-01T00:00:00.000Z") ∧
    Js.get "last_loggedIn" record = Some (VStr "2025-01-01T00:00:00.000Z") ∧
    Js.get "status" record = None ∧
    ∀ k, k ≠ "role" → k ≠ "created_at" → k ≠ "last_loggedIn" →
         Js.get k record
         = Mongo.bson <$> Js.get k [("email", VStr "a@x.com")].
Proof.
  exact (post_user_creates_customer_record dev new_year
           (anonymous POST_user [("email", VStr "a@x.com")]) empty_db
           eq_refl eq_refl).
Defined.

(** C5 on an example: alice logs in again ten seconds later. *)
Lemma second_login_touches_last_loggedIn :
  ∃ i d' result,
    users only_alice !! i = Some alice ∧
    serve dev later (anonymous POST_user [("email", VStr "a@x.com")])
      only_alice
    = (Responded (send (UpdateResult result)),
       {| users := <[i := d']> [alice]; plants := []; orders := [] |}) ∧
    Js.get "last_loggedIn" d' = Some (VStr "2025-01-01T00:00:10.000Z") ∧
    ∀ k, k ≠ "last_loggedIn" → Js.get k d' = Js.get k alice.
Proof.
  exact (post_user_existing_updates_last_loggedIn_only dev later
           (anonymous POST_user [("email", VStr "a@x.com")]) only_alice alice
           eq_refl eq_refl).
Defined.

(** C10 on an example: a first login that claims role admin. *)
Lemma first_login_claiming_admin_is_customer :
  ∃ record,
    users (serve dev new_year
             (anonymous POST_user
                [("email", VStr "m@x.com"); ("role", VStr "admin")])
             only_alice).2
    = [alice; record] ∧
    Js.field record "role" = VStr "customer".
Proof.
  exact (post_user_never_trusts_client_role dev new_year
           (anonymous POST_user
              [("email", VStr "m@x.com"); ("role", VStr "admin")])
           only_alice eq_refl eq_refl).
Defined.

(** C6, the claim refuted: the identity [verifyToken] decodes from the
    credential issued for [{email: "a@x.com"}] is not that object. *)
Lemma decoded_identity_is_not_the_bare_claim :
  ∃ t decoded,
    (serve dev new_year (login_as "a@x.com") empty_db).1
    = Responded
        {| status := 200;
           cookie := Some (res_cookie "token" t (login_cookie_options dev));
           sent := success |} ∧
    Jwt.verify t (ACCESS_TOKEN_SECRET dev) (new_year 0%nat)
    = Jwt.Decoded decoded ∧
    decoded ≠ VObj [("email", VStr "a@x.com")].
Proof.
  eexists _, _. split; [reflexivity|]. split; [reflexivity|]. discriminate.
Qed.

(** C6 on the same example. *)
Lemma credential_for_alice_verifies :
  ∃ t,
    serve dev new_year (login_as "a@x.com") empty_db
    = (Responded
         {| status := 200;
            cookie := Some (res_cookie "token" t (login_cookie_options dev));
            sent := success |}, empty_db) ∧
    ∀ (clk' : clock) (rq' : request) (s' : db),
      cookies_token rq' = Some t →
      clk' 0%nat / 1000 < new_year 0%nat / 1000 + Jwt.expiresIn_365d →
      verifyToken dev clk' s' (incoming rq') =
        inl {| req := rq';
               user := VObj [("email", VStr "a@x.com");
                             ("iat", VNum (new_year 0%nat / 1000));
                             ("exp", VNum (new_year 0%nat / 1000
                                           + Jwt.expiresIn_365d))] |}.
Proof.
  exact (issued_credential_verifies_with_iat_exp dev new_year
           "a@x.com" "s3cret" None empty_db eq_refl).
Defined.



End Examples.

(** ** Credentials that do not verify, and roles that do not fit *)

Section Gates.
Context `{QueryEngine} `{Runtime}.
Variable e : env.
Variable clk : clock.

Lemma verifyToken_refused s rq :
  authenticated e clk rq = None →
  verifyToken e clk s (incoming rq) = inr unauthorized.
Proof.
  unfold authenticated, verifyToken. cbn [incoming req].
  destruct (cookies_token rq) as [t|]; [|done].
  destruct (falsy_token (Some t)); [done|].
  by destruct (Jwt.verify t _ _).
Qed.

Lemma verifyToken_authenticated s rq decoded :
  authenticated e clk rq = Some decoded →
  verifyToken e clk s (incoming rq) = inl {| req := rq; user := decoded |}.
Proof.
  unfold authenticated.
  destruct (cookies_token rq) as [t|] eqn:Ht; [|done].
  destruct (Jwt.verify t _ _) as [d|] eqn:Hv; [|done].
  intros [= <-]. unfold incoming. by apply (verifyToken_pass e clk s rq _ t).
Qed.

Lemma unauthenticated_stops rq s (h : handler) :
  token_guarded (target rq) = true →
  authenticated e clk rq = None →
  run_chain (use e clk <$> guards (target rq)) h s (incoming rq)
    = (Responded unauthorized, s).
Proof.
  intros Hg Hnone.
  destruct (target rq); try discriminate Hg; simpl;
    by rewrite verifyToken_refused.
Qed.

Lemma role_gate_opens rq s decoded u role (h : handler) :
  demanded_role (target rq) = Some role →
  authenticated e clk rq = Some decoded →
  Mongo.findOne (FEq "email" (Js.prop decoded "email")) (users s) = Some u →
  Js.field u "role" = VStr role →
  run_chain (use e clk <$> guards (target rq)) h s (incoming rq)
    = h s {| req := rq; user := decoded |}.
Proof.
  intros Hrole Hauth Hu Hur.
  destruct (target rq); try discriminate Hrole; injection Hrole as <-; simpl;
    rewrite (verifyToken_authenticated _ _ _ Hauth);
    [unfold verifySeller | unfold verifySeller | unfold verifyAdmin
    | unfold verifyAdmin | unfold verifyAdmin];
    cbn [user]; by rewrite Hu, Hur.
Qed.

Lemma role_gate_shuts rq s decoded u role :
  demanded_role (target rq) = Some role →
  authenticated e clk rq = Some decoded →
  Mongo.findOne (FEq "email" (Js.prop decoded "email")) (users s) = Some u →
  Js.is_string (Js.field u "role") role = false →
  ∃ msg, ∀ h : handler,
    run_chain (use e clk <$> guards (target rq)) h s (incoming rq)
      = (Responded (forbidden msg), s).
Proof.
  intros Hrole Hauth Hu Hur.
  destruct (target rq); try discriminate Hrole; injection Hrole as <-;
    eexists; intros h; simpl;
    rewrite (verifyToken_authenticated _ _ _ Hauth);
    [unfold verifySeller | unfold verifySeller | unfold verifyAdmin
    | unfold verifyAdmin | unfold verifyAdmin];
    cbn [user]; rewrite Hu, Hur; reflexivity.
Qed.

(** X1: on every route registered with [verifyToken], a request without a
    [token] cookie, or with one that [jwt.verify] refuses, is answered 401.
    The store is left as it was and the handler is not reached. *)
Theorem token_guarded_route_rejects_unverified rq s :
  token_guarded (target rq) = true →
  authenticated e clk rq = None →
  serve e clk rq s = (Responded unauthorized, s) ∧
  ∀ h : handler,
    run_chain (use e clk <$> guards (target rq)) h s (incoming rq)
      = (Responded unauthorized, s).
Proof.
  intros Hg Hnone. split; [|intros h]; by apply unauthenticated_stops.
Qed.

(** X3: on every role-gated route, a caller whose credential verifies and
    whose record has another role than the one the route demands is
    answered 403; the store is left as it was and the handler is not
    reached. *)
Theorem role_gated_route_forbids_other_role rq s decoded u role :
  demanded_role (target rq) = Some role →
  authenticated e clk rq = Some decoded →
  Mongo.findOne (FEq "email" (Js.prop decoded "email")) (users s) = Some u →
  Js.is_string (Js.field u "role") role = false →
  ∃ msg,
    serve e clk rq s = (Responded (forbidden msg), s) ∧
    ∀ h : handler,
      run_chain (use e clk <$> guards (target rq)) h s (incoming rq)
        = (Responded (forbidden msg), s).
Proof.
  intros Hrole Hauth Hu Hur.
  destruct (role_gate_shuts rq s decoded u role Hrole Hauth Hu Hur)
    as [msg Hstop].
  exists msg. split; [apply Hstop | exact Hstop].
Qed.

End Gates.

Section Expiry.
Context `{QueryEngine} `{Runtime}.
Variable e : env.

(** X2: the credential [POST /jwt] issues for [{email: a}] stops working
    365 days after issuance, to the second: from then on every route
    registered with [verifyToken] answers it with 401. *)
Theorem issued_credential_expires (clk : clock) (a : string) key tok s :
  Jwt.usable (ACCESS_TOKEN_SECRET e) = Some key →
  ∃ t,
    serve e clk
      {| target := POST_jwt; cookies_token := tok;
         body := [("email", VStr a)] |} s
    = (Responded
         {| status := 200;
            cookie := Some (res_cookie "token" t (login_cookie_options e));
            sent := success |}, s) ∧
    ∀ (clk' : clock) (rq' : request) (s' : db),
      cookies_token rq' = Some t →
      token_guarded (target rq') = true →
      (clk 0%nat / 1000 + Jwt.expiresIn_365d ≤ clk' 0%nat / 1000)%Z →
      serve e clk' rq' s' = (Responded unauthorized, s').
Proof.
  intros Hkey. unfold serve at 1. simpl. unfold post_jwt. simpl.
  unfold Jwt.sign. rewrite Hkey. simpl.
  eexists. split; [reflexivity|].
  intros clk' rq' s' Ht Hg Hlate.
  apply (unauthenticated_stops e clk'); [done|].
  unfold authenticated. rewrite Ht.
  unfold Jwt.verify. rewrite Hkey, String.eqb_refl. simpl.
  destruct (Z.leb_spec (clk 0%nat / 1000 + Jwt.expiresIn_365d)
              (clk' 0%nat / 1000)); [done|lia].
Qed.

End Expiry.

(** ** Updates in place *)

Lemma set_same k v o : Js.get k o = Some v → Js.set k v o = o.
Proof.
  induction o as [|[k' v'] o IH]; simpl; [done|].
  destruct (String.eqb k k'); [by intros [= ->]|].
  intros Hget. by rewrite IH.
Qed.

Lemma apply_set_fixed upd d :
  (∀ k v, (k, v) ∈ upd → Js.get k d = Some (Mongo.bson v)) →
  Mongo.apply_set upd d = d.
Proof.
  unfold Mongo.apply_set.
  induction upd as [|[k v] upd IH]; intros Hall; simpl; [done|].
  rewrite set_same by (apply Hall; left).
  apply IH. intros k' v' Hin. apply Hall. by right.
Qed.

Lemma apply_set_role_status role d :
  let d' := Mongo.apply_set [("role", role); ("status", VStr "verified")] d in
  Js.get "role" d' = Some (Mongo.bson role) ∧
  Js.get "status" d' = Some (VStr "verified") ∧
  ∀ k, k ≠ "role" → k ≠ "status" → Js.get k d' = Js.get k d.
Proof.
  unfold Mongo.apply_set. simpl. split; [|split].
  - rewrite get_set_ne by done. apply get_set_eq.
  - apply get_set_eq.
  - intros k Hr Hs. rewrite !get_set_ne by congruence. done.
Qed.

Lemma apply_set_role_status_again role d :
  let upd := [("role", role); ("status", VStr "verified")] in
  Mongo.apply_set upd (Mongo.apply_set upd d) = Mongo.apply_set upd d.
Proof.
  intros upd. apply apply_set_fixed. intros k v Hin.
  destruct (apply_set_role_status role d) as (Hrole & Hstatus & _).
  apply elem_of_cons in Hin as [[= -> ->]|Hin]; [exact Hrole|].
  apply list_elem_of_singleton in Hin as [= -> ->]. exact Hstatus.
Qed.

Section UpdateFacts.
Context `{QueryEngine}.
Import Mongo.

Lemma updateOne_effect f upd c :
  match find_first f c with
  | Some (i, d) =>
      c !! i = Some d ∧
      ∃ r, updateOne f upd c = (<[i := apply_set upd d]> c, r) ∧
           matchedCount r = 1%nat
  | None =>
      updateOne f upd c = (c, {| matchedCount := 0; modifiedCount := 0 |})
  end.
Proof.
  unfold updateOne.
  destruct (find_first f c) as [[i d]|] eqn:Hfind; [|done].
  destruct (find_first_lookup _ _ _ _ Hfind) as [Hi _].
  split; [done|]. eauto.
Qed.

(** An update leaves alone every field it does not list. *)
Lemma updateOne_keeps_field k f upd c :
  k ∉ upd.*1 → Js.get k <$> (updateOne f upd c).1 = Js.get k <$> c.
Proof.
  intros Hk. unfold updateOne.
  destruct (find_first f c) as [[i d]|] eqn:Hfind; simpl; [|done].
  destruct (find_first_lookup _ _ _ _ Hfind) as [Hi _].
  rewrite list_fmap_insert, get_apply_set_other by done.
  apply list_insert_id. by rewrite list_lookup_fmap, Hi.
Qed.

(** After an update that leaves [email] alone, the same filter on [email]
    finds the rewritten document, at the same place. *)
Lemma find_first_after_update (a : string) upd c i d :
  email_filter_reads_email →
  "email" ∉ upd.*1 →
  find_first (FEq "email" (VStr a)) c = Some (i, d) →
  find_first (FEq "email" (VStr a)) (<[i := apply_set upd d]> c)
    = Some (i, apply_set upd d).
Proof.
  intros Hreads Hupd Hfind. unfold find_first in *.
  apply list_find_Some in Hfind as (Hi & Hm & Hbefore).
  apply list_find_Some. split; [|split].
  - apply list_lookup_insert_eq. by eapply lookup_lt_Some.
  - rewrite (Hreads a (apply_set upd d) d); [done|].
    by apply get_apply_set_other.
  - intros j y Hj Hlt. rewrite list_lookup_insert_ne in Hj by lia.
    by apply (Hbefore j).
Qed.

Lemma updateOne_again (a : string) upd c :
  email_filter_reads_email →
  "email" ∉ upd.*1 →
  (∀ d, apply_set upd (apply_set upd d) = apply_set upd d) →
  (updateOne (FEq "email" (VStr a)) upd
     (updateOne (FEq "email" (VStr a)) upd c).1).1
    = (updateOne (FEq "email" (VStr a)) upd c).1.
Proof.
  intros Hreads Hupd Hidem. unfold updateOne at 2 3.
  destruct (find_first (FEq "email" (VStr a)) c) as [[i d]|] eqn:Hfind; simpl.
  - unfold updateOne.
    rewrite (find_first_after_update a upd c i d Hreads Hupd Hfind). simpl.
    by rewrite Hidem, list_insert_insert_eq.
  - unfold updateOne. by rewrite Hfind.
Qed.

End UpdateFacts.

(** ** What the guards hand to the handler *)

Section Chains.
Context `{QueryEngine} `{Runtime}.
Variable e : env.
Variable clk : clock.

Import Mongo.

Lemma verifySeller_inv s c c' :
  verifySeller s c = inl c' →
  c' = c ∧
  ∃ u, findOne (FEq "email" (Js.prop (user c) "email")) (users s) = Some u ∧
       Js.field u "role" = VStr "seller".
Proof.
  unfold verifySeller.
  destruct (findOne _ _) as [u|]; [|discriminate].
  destruct (Js.is_string _ _) eqn:Hrole; simpl; [|discriminate].
  intros [= <-]. split; [done|]. exists u. split; [done|].
  by apply is_string_true.
Qed.

Lemma guard_keeps_req g s c c' : use e clk g s c = inl c' → req c' = req c.
Proof.
  destruct g; simpl; intros Hg.
  - by apply verifyToken_inv in Hg as (t & decoded & _ & _ & ->).
  - by apply verifyAdmin_inv in Hg as [-> _].
  - by apply verifySeller_inv in Hg as [-> _].
Qed.

(** A chain of guards either answers itself, leaving the store alone, or
    hands the request it was given to the handler. *)
Lemma guards_stop_or_hand_over gs (h : handler) s c :
  (∃ r, run_chain (use e clk <$> gs) h s c = (Responded r, s)) ∨
  (∃ c', req c' = req c ∧ run_chain (use e clk <$> gs) h s c = h s c').
Proof.
  revert c. induction gs as [|g gs IH]; intros c; simpl.
  - right. by exists c.
  - destruct (use e clk g s c) as [c1|r] eqn:Hg; [|left; by exists r].
    apply guard_keeps_req in Hg.
    destruct (IH c1) as [Hstop|(c' & Hreq & Hrun)]; [by left|].
    right. exists c'. split; [congruence|done].
Qed.

Lemma admin_approved_authenticated rq s :
  admin_approved e clk rq s →
  ∃ email decoded u,
    target rq = PATCH_user_role_update email ∧
    authenticated e clk rq = Some decoded ∧
    findOne (FEq "email" (Js.prop decoded "email")) (users s) = Some u ∧
    Js.field u "role" = VStr "admin".
Proof.
  intros (email & t & decoded & u & Hr & Ht & Hv & Hu & Hrole).
  exists email, decoded, u. repeat split; try done.
  unfold authenticated. by rewrite Ht, Hv.
Qed.

(** With the admin gate passed, the role update is the handler's
    [updateOne] on the store. *)
Lemma admin_role_update_runs rq s :
  admin_approved e clk rq s →
  ∃ email,
    target rq = PATCH_user_role_update email ∧
    serve e clk rq s =
      (Responded
         (send (UpdateResult
                  (updateOne (FEq "email" (VStr email))
                     [("role", Js.field (body rq) "role");
                      ("status", VStr "verified")] (users s)).2)),
       {| users :=
            (updateOne (FEq "email" (VStr email))
               [("role", Js.field (body rq) "role");
                ("status", VStr "verified")] (users s)).1;
          plants := plants s; orders := orders s |}).
Proof.
  intros Happ.
  destruct (admin_approved_authenticated rq s Happ)
    as (email & decoded & u & Hr & Hauth & Hu & Hrole).
  exists email. split; [done|]. unfold serve.
  rewrite (role_gate_opens e clk rq s decoded u "admin");
    [|by rewrite Hr|done..].
  rewrite Hr. simpl. unfold patch_user_role_update. simpl.
  by destruct (updateOne _ _ _).
Qed.

(** X4: a role update that passed the admin gate answers 200 and rewrites
    the first record whose email matches the path: its role becomes the
    body's [role], whatever value that is, its status becomes verified, and
    its other fields stay.  Every other record stays; when no record
    matches, nothing changes and the answer reports no match. *)
Theorem admin_role_update_effect rq s :
  admin_approved e clk rq s →
  ∃ email result users',
    target rq = PATCH_user_role_update email ∧
    serve e clk rq s =
      (Responded (send (UpdateResult result)),
       {| users := users'; plants := plants s; orders := orders s |}) ∧
    match findOne (FEq "email" (VStr email)) (users s) with
    | Some d =>
        ∃ i d',
          users s !! i = Some d ∧
          users' = <[i := d']> (users s) ∧
          matchedCount result = 1%nat ∧
          Js.get "role" d' = Some (bson (Js.field (body rq) "role")) ∧
          Js.get "status" d' = Some (VStr "verified") ∧
          ∀ k, k ≠ "role" → k ≠ "status" → Js.get k d' = Js.get k d
    | None =>
        users' = users s ∧
        result = {| matchedCount := 0; modifiedCount := 0 |}
    end.
Proof.
  intros Happ.
  destruct (admin_role_update_runs rq s Happ) as (email & Hr & Hserve).
  eexists email, _, _. split; [done|]. split; [exact Hserve|].
  pose proof (updateOne_effect (FEq "email" (VStr email))
                [("role", Js.field (body rq) "role");
                 ("status", VStr "verified")] (users s)) as Heff.
  unfold findOne.
  destruct (find_first _ _) as [[i d]|]; simpl.
  - destruct Heff as (Hi & r & -> & Hmatched). simpl.
    destruct (apply_set_role_status (Js.field (body rq) "role") d)
      as (Hrole & Hstatus & Hother).
    eexists i, _. split; [done|]. split; [done|]. split; [done|].
    split; [exact Hrole|]. split; [exact Hstatus | exact Hother].
  - by rewrite Heff.
Qed.

(** X5: a role update whose body names no [role] does not fail: with the
    admin gate passed it overwrites the matching record's role with
    [null]. *)
Theorem admin_role_update_without_role rq s email d :
  admin_approved e clk rq s →
  target rq = PATCH_user_role_update email →
  Js.get "role" (body rq) = None →
  findOne (FEq "email" (VStr email)) (users s) = Some d →
  ∃ i d',
    users s !! i = Some d ∧
    users (serve e clk rq s).2 = <[i := d']> (users s) ∧
    Js.get "role" d' = Some VNull ∧
    Js.get "status" d' = Some (VStr "verified").
Proof.
  intros Happ Hr Hnorole Hfound.
  destruct (admin_role_update_runs rq s Happ) as (email' & Hr' & ->).
  rewrite Hr in Hr'. injection Hr' as <-. simpl.
  apply findOne_find_first in Hfound as [i Hfind].
  pose proof (updateOne_effect (FEq "email" (VStr email))
                [("role", Js.field (body rq) "role");
                 ("status", VStr "verified")] (users s)) as Heff.
  rewrite Hfind in Heff. destruct Heff as (Hi & r & -> & _). simpl.
  destruct (apply_set_role_status (Js.field (body rq) "role") d)
    as (Hrole & Hstatus & _).
  eexists i, _. split; [done|]. split; [done|].
  split; [|exact Hstatus].
  rewrite Hrole. unfold Js.field. by rewrite Hnorole.
Qed.

End Chains.

(** ** What requests leave alone *)

Section Frames.
Context `{QueryEngine} `{Runtime}.
Variable e : env.
Variable clk : clock.

Import Mongo.

Lemma patch_user_role_update_store email s c :
  (patch_user_role_update email s c).2 =
    {| users :=
         (updateOne (FEq "email" (VStr email))
            [("role", Js.field (body (req c)) "role");
             ("status", VStr "verified")] (users s)).1;
       plants := plants s; orders := orders s |}.
Proof. unfold patch_user_role_update. by destruct (updateOne _ _ _). Qed.

Lemma patch_became_seller_request_store email s c :
  (patch_became_seller_request email s c).2 =
    {| users :=
         (updateOne (FEq "email" (VStr email))
            [("status", VStr "requested")] (users s)).1;
       plants := plants s; orders := orders s |}.
Proof. unfold patch_became_seller_request. by destruct (updateOne _ _ _). Qed.

Lemma field_kept_same k c c' : Js.get k <$> c' = Js.get k <$> c → field_kept k c c'.
Proof.
  intros Hsame. exists []. split; [simpl; lia|]. by rewrite app_nil_r.
Qed.


Lemma operation_keeps_orders r s c :
  orders (operation e clk r s c).2 = orders s.
Proof.
  destruct r; simpl; try done.
  - unfold post_jwt. by destruct (Jwt.sign _ _ _).
  - unfold post_user. simpl. destruct (findOne _ _); [|done].
    by destruct (updateOne _ _ _).
  - unfold get_user_role. by destruct (findOne _ _).
  - by rewrite patch_user_role_update_store.
  - by rewrite patch_became_seller_request_store.
Qed.

(** X7: every [GET] route, and [POST /jwt], leaves the whole store as it
    is, whatever the request and whether or not it gets past the guards. *)
Theorem reading_routes_leave_the_store rq s :
  reads_only (target rq) = true → (serve e clk rq s).2 = s.
Proof.
  intros Hro. unfold serve.
  destruct (run_chain_stops_or_runs (use e clk <$> guards (target rq))
              (operation e clk (target rq)) s (incoming rq))
    as [[r ->]|[c' ->]]; [done|].
  destruct (target rq); try discriminate Hro; simpl; try done.
  - unfold post_jwt. by destruct (Jwt.sign _ _ _).
  - unfold get_user_role. by destruct (findOne _ _).
Qed.


(** X9: no request rewrites a field other than [role], [status] and
    [last_loggedIn] in a stored user record, and none removes or moves a
    record: email, [created_at] and the rest are, record by record, what
    they were, and at most one record is appended. *)
Theorem requests_keep_other_fields rq s k :
  k ≠ "role" → k ≠ "status" → k ≠ "last_loggedIn" →
  field_kept k (users s) (users (serve e clk rq s).2).
Proof.
  intros Hrole Hstatus Hlast.
  destruct (target rq) eqn:Hr.
  4: { destruct (findOne (FEq "email" (Js.field (body rq) "email")) (users s))
         as [d|] eqn:Hfind.
       - destruct (post_user_updates e clk rq s d Hr Hfind)
           as (i & result & Hi & ->). simpl.
         apply field_kept_same.
         rewrite list_fmap_insert, get_apply_set_other.
         + apply list_insert_id. by rewrite list_lookup_fmap, Hi.
         + simpl. by rewrite list_elem_of_singleton.
       - rewrite (post_user_inserts e clk rq s Hr Hfind). simpl.
         exists [bson_doc (stamped clk (body rq))]. split; [done|].
         by rewrite fmap_app. }
  8: { unfold serve. rewrite Hr.
       destruct (guards_stop_or_hand_over e clk
                   (guards (PATCH_user_role_update email))
                   (operation e clk (PATCH_user_role_update email))
                   s (incoming rq)) as [[r ->]|(c' & _ & ->)];
         [by apply field_kept_same|].
       simpl. rewrite patch_user_role_update_store. simpl.
       apply field_kept_same, updateOne_keeps_field. simpl.
       rewrite !not_elem_of_cons. repeat split; try done.
       apply not_elem_of_nil. }
  8: { unfold serve. rewrite Hr.
       destruct (guards_stop_or_hand_over e clk
                   (guards (PATCH_became_seller_request email))
                   (operation e clk (PATCH_became_seller_request email))
                   s (incoming rq)) as [[r ->]|(c' & _ & ->)];
         [by apply field_kept_same|].
       simpl. rewrite patch_became_seller_request_store. simpl.
       apply field_kept_same, updateOne_keeps_field. simpl.
       by rewrite list_elem_of_singleton. }
  all: unfold serve; rewrite Hr;
    match goal with
    | |- context [run_chain ?ms ?h ?s0 ?c] =>
        destruct (run_chain_stops_or_runs ms h s0 c) as [[r ->]|[c' ->]]
    end; [by apply field_kept_same|];
    apply field_kept_same; f_equal; by apply operation_keeps_users.
Qed.

(** X10: no route that runs middleware or reads the users writes to the
    orders collection, and neither do [GET /plants] and [GET /];
    [POST /order], which asks for no credential, appends the request body
    to it and touches nothing else. *)
Theorem orders_grow_only_by_post_order rq s (orderData : obj) :
  orders (serve e clk rq s).2 = orders s ∧
  orders (get_plants s).2 = orders s ∧
  orders (get_root s).2 = orders s ∧
  (post_order orderData s).2 =
    {| users := users s; plants := plants s;
       orders := (orders s ++ [bson_doc orderData])%list |}.
Proof.
  split; [|done]. unfold serve.
  destruct (run_chain_stops_or_runs (use e clk <$> guards (target rq))
              (operation e clk (target rq)) s (incoming rq))
    as [[r ->]|[c' ->]]; [done|].
  apply operation_keeps_orders.
Qed.

End Frames.

Section Repeats.
Context `{QueryEngine} `{Runtime}.
Variable e : env.

Import Mongo.

(** X6: approving a role is idempotent.  Once a role update has passed
    the admin gate, sending the same request again, at any later time,
    leaves the store as the first one left it, whether the second one
    passes the gate or not. *)
Theorem admin_role_update_twice (clk clk' : clock) rq s :
  email_filter_reads_email →
  admin_approved e clk rq s →
  (serve e clk' rq (serve e clk rq s).2).2 = (serve e clk rq s).2.
Proof.
  intros Hreads Happ.
  destruct (admin_role_update_runs e clk rq s Happ) as (email & Hr & ->).
  cbn [snd]. unfold serve.
  match goal with
  | |- context [run_chain ?ms ?h ?s0 ?c] =>
      destruct (guards_stop_or_hand_over e clk' (guards (target rq)) h s0 c)
        as [[r ->]|(c' & Hreq & ->)]
  end; [done|].
  rewrite Hr. cbn [operation]. rewrite patch_user_role_update_store.
  cbn [users plants orders]. rewrite Hreq. cbn [incoming req].
  rewrite updateOne_again; [done|done| |].
  - simpl. rewrite !not_elem_of_cons. repeat split; try done.
    apply not_elem_of_nil.
  - intros d. apply apply_set_role_status_again.
Qed.

End Repeats.

(** ** Logins, lookups and listings *)

Lemma field_string_get d k (a : string) :
  Js.field d k = VStr a ↔ Js.get k d = Some (VStr a).
Proof.
  unfold Js.field. destruct (Js.get k d) as [x|]; simpl; [|done].
  split; congruence.
Qed.

Section Appended.
Context `{QueryEngine}.
Import Mongo.

Lemma find_first_appended f c d :
  findOne f c = None → matches f d = true →
  find_first f (c ++ [d]) = Some (length c, d).
Proof.
  intros Hnone Hd. apply findOne_find_first_none in Hnone.
  unfold find_first in *. rewrite list_find_app_r by done.
  simpl. by rewrite decide_True.
Qed.

Lemma findOne_app_l f c c' u :
  findOne f c = Some u → findOne f (c ++ c') = Some u.
Proof.
  intros [i Hfind]%findOne_find_first. apply findOne_find_first.
  exists i. unfold find_first in *. by apply list_find_app_l.
Qed.

Lemma updateOne_appended f upd c d :
  findOne f c = None → matches f d = true →
  (updateOne f upd (c ++ [d])).1 = (c ++ [apply_set upd d])%list.
Proof.
  intros Hnone Hd. unfold updateOne.
  rewrite (find_first_appended f c d Hnone Hd). simpl.
  rewrite <- (Nat.add_0_r (length c)). by rewrite insert_app_r.
Qed.

(** Under [matches_own_email], a store in which [{email: a}] finds nothing
    holds no record whose email is [a]. *)
Lemma no_match_no_email (a : string) c :
  matches_own_email →
  findOne (FEq "email" (VStr a)) c = None → VStr a ∉ emails c.
Proof.
  intros Hown Hnone Hin. apply findOne_find_first_none in Hnone.
  unfold find_first in Hnone. rewrite list_find_None, Forall_forall in Hnone.
  unfold emails in Hin. apply list_elem_of_fmap in Hin as (d & Hd & Hin).
  apply (Hnone d Hin), Hown. by apply field_string_get.
Qed.

End Appended.

Section Logins.
Context `{QueryEngine} `{Runtime}.
Variable e : env.

Import Mongo.

Lemma stamped_record_email (clk : clock) b (a : string) :
  Js.get "email" b = Some (VStr a) →
  Js.get "email" (bson_doc (stamped clk b)) = Some (VStr a).
Proof.
  intros Hb. rewrite get_bson_doc, stamped_other by done. by rewrite Hb.
Qed.

Lemma token_gate_opens (clk : clock) rq s decoded (h : handler) :
  guards (target rq) = [VerifyToken] →
  authenticated e clk rq = Some decoded →
  run_chain (use e clk <$> guards (target rq)) h s (incoming rq)
    = h s {| req := rq; user := decoded |}.
Proof.
  intros -> Hauth. simpl. by rewrite (verifyToken_authenticated _ _ _ _ _ Hauth).
Qed.

(** X11: logins handled one at a time never create a second record for
    an email.  When nothing else touches the store between the lookup and
    the write of a [POST /user], then for a body whose email is the string
    [a], either the emails of the stored records are what they were, or no
    record had email [a] and one record with that email is appended; a
    store without duplicate emails stays so. *)
Theorem login_never_duplicates_email (clk : clock) rq s (a : string) :
  matches_own_email →
  target rq = POST_user →
  Js.get "email" (body rq) = Some (VStr a) →
  let after := users (serve e clk rq s).2 in
  (emails after = emails (users s) ∨
   ((VStr a ∉ emails (users s)) ∧
    emails after = (emails (users s) ++ [VStr a])%list)) ∧
  (NoDup (emails (users s)) → NoDup (emails after)).
Proof.
  intros Hown Hr Ha after. subst after.
  assert (Js.field (body rq) "email" = VStr a) as Hfield
    by (by apply field_string_get).
  destruct (findOne (FEq "email" (Js.field (body rq) "email")) (users s))
    as [d|] eqn:Hfind.
  - destruct (post_user_updates e clk rq s d Hr Hfind)
      as (i & result & Hi & ->). simpl.
    assert (emails (<[i := apply_set
               [("last_loggedIn", VStr (toISOString (clk 2%nat)))] d]>
               (users s)) = emails (users s)) as ->; [|by split; [left|]].
    unfold emails. rewrite list_fmap_insert. unfold Js.field at 1.
    rewrite get_apply_set_other
      by (simpl; by rewrite list_elem_of_singleton).
    apply list_insert_id. by rewrite list_lookup_fmap, Hi.
  - rewrite (post_user_inserts e clk rq s Hr Hfind). simpl.
    rewrite Hfield in Hfind.
    pose proof (no_match_no_email a (users s) Hown Hfind) as Hfresh.
    assert (emails (users s ++ [bson_doc (stamped clk (body rq))])
            = (emails (users s) ++ [VStr a])%list) as ->.
    { unfold emails. rewrite fmap_app. simpl. f_equal. f_equal.
      apply field_string_get. by apply stamped_record_email. }
    split; [by right|].
    intros Hnodup. apply NoDup_app. split; [done|]. split.
    + intros x Hx ->%list_elem_of_singleton. done.
    + apply NoDup_singleton.
Qed.

(** X12: after a first login with the string email [a], looking up the
    role of [a] answers [{role: "customer"}], to anyone, whatever role the
    login body claimed. *)
Theorem first_login_then_role_lookup (clk clk' : clock) rq s (a : string)
    tok b :
  matches_own_email →
  target rq = POST_user →
  Js.get "email" (body rq) = Some (VStr a) →
  findOne (FEq "email" (VStr a)) (users s) = None →
  let s1 := (serve e clk rq s).2 in
  serve e clk'
    {| target := GET_user_role a; cookies_token := tok; body := b |} s1
  = (Responded (send (Json (VObj [("role", VStr "customer")]))), s1).
Proof.
  intros Hown Hr Ha Hnone s1. subst s1.
  assert (Js.field (body rq) "email" = VStr a) as Hfield
    by (by apply field_string_get).
  rewrite (post_user_inserts e clk rq s Hr) by (by rewrite Hfield).
  unfold serve. simpl. unfold get_user_role, findOne. simpl.
  rewrite (find_first_appended _ _ _ Hnone)
    by (by apply Hown, stamped_record_email).
  simpl. unfold Js.field. by rewrite get_bson_doc, stamped_role.
Qed.

(** X13: [GET /orders/customer/:email] answers every verified caller
    alike: two requests for the same path email get the same answer from
    the same store, whoever their credentials name, and the store is left
    as it is. *)
Theorem customer_orders_for_any_caller (clk clk' : clock) rq rq' s email
    decoded decoded' :
  target rq = GET_orders_customer email →
  target rq' = GET_orders_customer email →
  authenticated e clk rq = Some decoded →
  authenticated e clk' rq' = Some decoded' →
  serve e clk rq s = serve e clk' rq' s ∧
  serve e clk rq s =
    (Responded
       (send (Json (VArr (List.map VObj
          (find (FEq "customer.email" (VStr email)) (orders s)))))), s).
Proof.
  intros Hr Hr' Hauth Hauth'. unfold serve.
  rewrite (token_gate_opens clk rq s decoded) by (by rewrite ?Hr).
  rewrite (token_gate_opens clk' rq' s decoded') by (by rewrite ?Hr').
  by rewrite Hr, Hr'.
Qed.

(** X14: what [GET /all-users] lists for an admin whose credential names
    the string email [a]: records of the store, none of them with email
    [a], and among them every record that [{email: a}] does not match. *)
Theorem all_users_excludes_the_caller (clk : clock) rq s decoded u
    (a : string) :
  matches_own_email →
  ne_negates_eq →
  target rq = GET_all_users →
  authenticated e clk rq = Some decoded →
  Js.prop decoded "email" = VStr a →
  findOne (FEq "email" (VStr a)) (users s) = Some u →
  Js.field u "role" = VStr "admin" →
  ∃ listed,
    serve e clk rq s =
      (Responded (send (Json (VArr (List.map VObj listed)))), s) ∧
    (∀ d, d ∈ listed → d ∈ users s ∧ Js.get "email" d ≠ Some (VStr a)) ∧
    (∀ d, d ∈ users s → matches (FEq "email" (VStr a)) d = false →
          d ∈ listed).
Proof.
  intros Hown Hne Hr Hauth Ha Hu Hrole.
  exists (find (FNe "email" (VStr a)) (users s)). split; [|split].
  - unfold serve.
    rewrite (role_gate_opens e clk rq s decoded u "admin");
      [|by rewrite Hr|done|by rewrite Ha|done].
    rewrite Hr. simpl. unfold get_all_users. simpl. by rewrite Ha.
  - intros d Hd. unfold find in Hd.
    apply list_elem_of_In, filter_In in Hd as [Hin Hm].
    split; [by apply list_elem_of_In|].
    intros Hemail. rewrite Hne, (Hown a d Hemail) in Hm. discriminate.
  - intros d Hin Hm. unfold find.
    apply list_elem_of_In, filter_In. split; [by apply list_elem_of_In|].
    by rewrite Hne, Hm.
Qed.

(** X15: a plant a seller adds is what [GET /plants] lists last: after an
    [POST /add-plant] that passed the seller gate, the listing is the
    earlier plants followed by the request body. *)
Theorem added_plant_is_listed (clk : clock) rq s :
  seller_approved e clk rq s →
  (get_plants (serve e clk rq s).2).1 =
    Responded
      (send (Json (VArr (List.map VObj
         (plants s ++ [bson_doc (body rq)]))))).
Proof.
  intros (decoded & u & Hr & Hauth & Hu & Hrole). unfold serve.
  rewrite (role_gate_opens e clk rq s decoded u "seller");
    [|by rewrite Hr|done..].
  by rewrite Hr.
Qed.

End Logins.

(** ** From first login to approved seller *)

Section Promotion.
Context `{QueryEngine} `{Runtime}.
Variable e : env.

Import Mongo.

(** X16: the promotion workflow, end to end.  A first login with the
    string email [a] appends a customer record; a seller request for [a]
    by any verified caller sets its status to requested and keeps its role;
    a role update for [a] that passes the admin gate gives it the body's
    role and status verified.  Through all three the record stays the last
    of the store, with its email and its [created_at] of the first
    login. *)
Theorem promotion_workflow (c1 c2 c3 : clock) rq1 rq2 rq3 s (a : string)
    d2 d3 u :
  matches_own_email →
  target rq1 = POST_user →
  Js.get "email" (body rq1) = Some (VStr a) →
  findOne (FEq "email" (VStr a)) (users s) = None →
  target rq2 = PATCH_became_seller_request a →
  authenticated e c2 rq2 = Some d2 →
  target rq3 = PATCH_user_role_update a →
  authenticated e c3 rq3 = Some d3 →
  findOne (FEq "email" (Js.prop d3 "email")) (users s) = Some u →
  Js.field u "role" = VStr "admin" →
  let s1 := (serve e c1 rq1 s).2 in
  let s2 := (serve e c2 rq2 s1).2 in
  let s3 := (serve e c3 rq3 s2).2 in
  ∃ r1 r2 r3,
    users s1 = (users s ++ [r1])%list ∧
    users s2 = (users s ++ [r2])%list ∧
    users s3 = (users s ++ [r3])%list ∧
    Js.get "role" r1 = Some (VStr "customer") ∧
    Js.get "role" r2 = Some (VStr "customer") ∧
    Js.get "status" r2 = Some (VStr "requested") ∧
    Js.get "role" r3 = Some (bson (Js.field (body rq3) "role")) ∧
    Js.get "status" r3 = Some (VStr "verified") ∧
    Js.get "email" r3 = Some (VStr a) ∧
    Js.get "created_at" r3 = Some (VStr (toISOString (c1 0%nat))).
Proof.
  intros Hown Hr1 Ha Hnone Hr2 Hauth2 Hr3 Hauth3 Hu Hrole s1 s2 s3.
  assert (Js.field (body rq1) "email" = VStr a) as Hfield
    by (by apply field_string_get).
  set (r1 := bson_doc (stamped c1 (body rq1))).
  set (r2 := apply_set [("status", VStr "requested")] r1).
  set (r3 := apply_set [("role", Js.field (body rq3) "role");
                        ("status", VStr "verified")] r2).
  assert (Js.get "email" r1 = Some (VStr a)) as He1
    by (by apply stamped_record_email).
  assert (Js.get "email" r2 = Some (VStr a)) as He2.
  { unfold r2. rewrite get_apply_set_other; [done|].
    simpl. by rewrite list_elem_of_singleton. }
  assert (s1 = {| users := users s ++ [r1];
                  plants := plants s; orders := orders s |}) as Hs1.
  { unfold s1. rewrite (post_user_inserts e c1 rq1 s Hr1); [done|].
    by rewrite Hfield. }
  assert (s2 = {| users := users s ++ [r2];
                  plants := plants s; orders := orders s |}) as Hs2.
  { unfold s2, serve.
    rewrite (token_gate_opens e c2 rq2 s1 d2) by (by rewrite ?Hr2).
    rewrite Hr2. cbn [operation].
    rewrite patch_became_seller_request_store, Hs1. cbn [users plants orders].
    by rewrite (updateOne_appended _ _ _ _ Hnone (Hown a r1 He1)). }
  assert (s3 = {| users := users s ++ [r3];
                  plants := plants s; orders := orders s |}) as Hs3.
  { unfold s3, serve.
    rewrite (role_gate_opens e c3 rq3 s2 d3 u "admin");
      [|by rewrite Hr3|done| |done].
    - rewrite Hr3. cbn [operation].
      rewrite patch_user_role_update_store, Hs2. cbn [users plants orders req].
      by rewrite (updateOne_appended _ _ _ _ Hnone (Hown a r2 He2)).
    - rewrite Hs2. cbn [users]. by apply findOne_app_l. }
  exists r1, r2, r3.
  rewrite Hs1, Hs2, Hs3. cbn [users].
  destruct (apply_set_role_status (Js.field (body rq3) "role") r2)
    as (Hrole3 & Hstatus3 & Hother3).
  assert (Js.get "role" r1 = Some (VStr "customer")) as Hrole1.
  { unfold r1. by rewrite get_bson_doc, stamped_role. }
  split; [done|]. split; [done|]. split; [done|]. split; [done|].
  split.
  { unfold r2. rewrite get_apply_set_other; [done|].
    simpl. by rewrite list_elem_of_singleton. }
  split; [apply (get_apply_set_last [])|].
  split; [exact Hrole3|]. split; [exact Hstatus3|].
  split; [by rewrite Hother3|].
  rewrite Hother3 by done. unfold r2.
  rewrite get_apply_set_other
    by (simpl; by rewrite list_elem_of_singleton).
  unfold r1. by rewrite get_bson_doc, stamped_created_at.
Qed.

End Promotion.

(** ** The reference engine meets the assumptions on matching *)

Lemma reference_field_equals_email v d :
  Reference.field_equals "email" v d =
    match Js.get "email" d with
    | Some x => Js.eqb x (Mongo.bson v)
    | None => Js.eqb VNull (Mongo.bson v)
    end.
Proof.
  unfold Reference.field_equals. simpl.
  by destruct (Js.get "email" d).
Qed.

Lemma reference_matches_own_email :
  @matches_own_email Reference.engine.
Proof.
  intros a d Hd. simpl. rewrite reference_field_equals_email, Hd. simpl.
  apply String.eqb_refl.
Qed.

Lemma reference_email_filter_reads_email :
  @email_filter_reads_email Reference.engine.
Proof.
  intros a d d' Hsame. simpl.
  by rewrite !reference_field_equals_email, Hsame.
Qed.

Lemma reference_ne_negates_eq : @ne_negates_eq Reference.engine.
Proof. by intros a d. Qed.

(** ** Logins that overlap *)

Section Overlap.
Context `{QueryEngine} `{Runtime}.

Import Mongo.

(** X17: two first logins that overlap both insert.  [POST /user] is its
    lookup followed by its write; when two requests for the same string
    email [a], unknown to the store, have both had their lookup answered
    before either writes, each appends a record, and the store ends with
    two records whose email is [a]. *)
Theorem overlapping_first_logins_duplicate (clk1 clk2 : clock) b1 b2 s
    (a : string) :
  Js.get "email" b1 = Some (VStr a) →
  Js.get "email" b2 = Some (VStr a) →
  findOne (FEq "email" (VStr a)) (users s) = None →
  let seen1 := post_user_lookup clk1 b1 s in
  let seen2 := post_user_lookup clk2 b2 s in
  let s1 := (post_user_resume clk1 b1 seen1 s).2 in
  let s2 := (post_user_resume clk2 b2 seen2 s1).2 in
  (∀ clk s0 c,
     post_user clk s0 c
     = post_user_resume clk (body (req c))
         (post_user_lookup clk (body (req c)) s0) s0) ∧
  emails (users s2) = (emails (users s) ++ [VStr a; VStr a])%list ∧
  ¬ NoDup (emails (users s2)).
Proof.
  intros Hb1 Hb2 Hnone seen1 seen2 s1 s2.
  split; [done|].
  assert (seen1 = None) as Hseen1.
  { unfold seen1, post_user_lookup. rewrite stamped_email.
    by rewrite (proj2 (field_string_get b1 "email" a) Hb1). }
  assert (seen2 = None) as Hseen2.
  { unfold seen2, post_user_lookup. rewrite stamped_email.
    by rewrite (proj2 (field_string_get b2 "email" a) Hb2). }
  assert (emails (users s2)
          = (emails (users s) ++ [VStr a; VStr a])%list) as Hemails.
  { unfold s2, s1. rewrite Hseen1, Hseen2. simpl. unfold insertOne, emails.
    rewrite !fmap_app, <- app_assoc. simpl. do 3 f_equal.
    - apply field_string_get. by apply stamped_record_email.
    - f_equal. apply field_string_get. by apply stamped_record_email. }
  split; [exact Hemails|].
  rewrite Hemails. intros Hnodup.
  apply NoDup_app in Hnodup as (_ & _ & Htwice).
  apply NoDup_cons in Htwice as [Hnotin _].
  apply Hnotin. by apply list_elem_of_singleton.
Qed.

End Overlap.

(** ** More worked requests *)

Section MoreExamples.
Import Reference Samples.

(** X1 on an example: no cookie on [GET /all-users]. *)
Lemma all_users_without_cookie :
  serve dev new_year (anonymous GET_all_users []) staffed
    = (Responded unauthorized, staffed) ∧
  ∀ h : handler,
    run_chain (use dev new_year <$> guards GET_all_users) h staffed
      (incoming (anonymous GET_all_users []))
    = (Responded unauthorized, staffed).
Proof.
  exact (token_guarded_route_rejects_unverified dev new_year
           (anonymous GET_all_users []) staffed eq_refl eq_refl).
Defined.

(** X2 on an example: alice's credential of [new_year], a year and a day
    later. *)
Lemma credential_for_alice_expires :
  ∃ t,
    serve dev new_year (login_as "a@x.com") empty_db
    = (Responded
         {| status := 200;
            cookie := Some (res_cookie "token" t (login_cookie_options dev));
            sent := success |}, empty_db) ∧
    ∀ (clk' : clock) (rq' : request) (s' : db),
      cookies_token rq' = Some t →
      token_guarded (target rq') = true →
      (new_year 0%nat / 1000 + Jwt.expiresIn_365d ≤ clk' 0%nat / 1000)%Z →
      serve dev clk' rq' s' = (Responded unauthorized, s').
Proof.
  exact (issued_credential_expires dev new_year "a@x.com" "s3cret" None
           empty_db eq_refl).
Defined.

(** X3 on an example: a seller on [GET /all-users]. *)
Lemma seller_forbidden_on_all_users :
  ∃ msg,
    serve dev new_year (as_user "sam@x.com" GET_all_users []) staffed
      = (Responded (forbidden msg), staffed) ∧
    ∀ h : handler,
      run_chain (use dev new_year <$> guards GET_all_users) h staffed
        (incoming (as_user "sam@x.com" GET_all_users []))
      = (Responded (forbidden msg), staffed).
Proof.
  exact (role_gated_route_forbids_other_role dev new_year
           (as_user "sam@x.com" GET_all_users []) staffed
           (claims_for "sam@x.com") sam "admin"
           eq_refl eq_refl eq_refl eq_refl).
Defined.

(** The admin's role update for alice passes the gate. *)
Lemma root_approves (b : obj) :
  admin_approved dev new_year
    (as_user "root@x.com" (PATCH_user_role_update "a@x.com") b) staffed.
Proof.
  exists "a@x.com", (token_for "root@x.com"), (claims_for "root@x.com"), root.
  repeat split.
Defined.

(** X4 on an example: the admin makes alice a seller. *)
Lemma root_makes_alice_seller :
  ∃ email result users',
    target (as_user "root@x.com" (PATCH_user_role_update "a@x.com")
              [("role", VStr "seller")])
      = PATCH_user_role_update email ∧
    serve dev new_year
      (as_user "root@x.com" (PATCH_user_role_update "a@x.com")
         [("role", VStr "seller")]) staffed
    = (Responded (send (UpdateResult result)),
       {| users := users'; plants := []; orders := [] |}) ∧
    match Mongo.findOne (FEq "email" (VStr email)) (users staffed) with
    | Some d =>
        ∃ i d',
          users staffed !! i = Some d ∧
          users' = <[i := d']> (users staffed) ∧
          Mongo.matchedCount result = 1%nat ∧
          Js.get "role" d' = Some (VStr "seller") ∧
          Js.get "status" d' = Some (VStr "verified") ∧
          ∀ k, k ≠ "role" → k ≠ "status" → Js.get k d' = Js.get k d
    | None =>
        users' = users staffed ∧
        result = {| Mongo.matchedCount := 0; Mongo.modifiedCount := 0 |}
    end.
Proof.
  exact (admin_role_update_effect dev new_year _ staffed
           (root_approves [("role", VStr "seller")])).
Defined.

(** X5 on an example: the admin sends an empty body for alice. *)
Lemma root_sends_no_role :
  ∃ i d',
    users staffed !! i = Some alice ∧
    users (serve dev new_year
             (as_user "root@x.com" (PATCH_user_role_update "a@x.com") [])
             staffed).2
    = <[i := d']> (users staffed) ∧
    Js.get "role" d' = Some VNull ∧
    Js.get "status" d' = Some (VStr "verified").
Proof.
  exact (admin_role_update_without_role dev new_year _ staffed "a@x.com"
           alice (root_approves []) eq_refl eq_refl eq_refl).
Defined.

(** X6 on an example: the same approval, sent again ten seconds later. *)
Lemma root_approves_twice :
  let rq := as_user "root@x.com" (PATCH_user_role_update "a@x.com")
              [("role", VStr "seller")] in
  (serve dev later rq (serve dev new_year rq staffed).2).2
  = (serve dev new_year rq staffed).2.
Proof.
  exact (admin_role_update_twice dev new_year later _ staffed
           reference_email_filter_reads_email
           (root_approves [("role", VStr "seller")])).
Defined.

(** X7 on an example: a role lookup. *)
Lemma role_lookup_leaves_store :
  (serve dev new_year (anonymous (GET_user_role "a@x.com") []) staffed).2
  = staffed.
Proof.
  exact (reading_routes_leave_the_store dev new_year
           (anonymous (GET_user_role "a@x.com") []) staffed eq_refl).
Defined.

(** X9 on an example: emails across a seller request. *)
Lemma seller_request_keeps_emails :
  field_kept "email" (users staffed)
    (users (serve dev new_year
              (as_user "a@x.com" (PATCH_became_seller_request "a@x.com") [])
              staffed).2).
Proof.
  apply (requests_keep_other_fields dev new_year
           (as_user "a@x.com" (PATCH_became_seller_request "a@x.com") [])
           staffed "email"); discriminate.
Defined.

(** X11 on an example: alice logs in again. *)
Lemma alice_is_not_duplicated :
  let after := users (serve dev later
                        (anonymous POST_user [("email", VStr "a@x.com")])
                        staffed).2 in
  (emails after = emails (users staffed) ∨
   ((VStr "a@x.com" ∉ emails (users staffed)) ∧
    emails after = (emails (users staffed) ++ [VStr "a@x.com"])%list)) ∧
  (NoDup (emails (users staffed)) → NoDup (emails after)).
Proof.
  exact (login_never_duplicates_email dev later
           (anonymous POST_user [("email", VStr "a@x.com")]) staffed
           "a@x.com" reference_matches_own_email eq_refl eq_refl).
Defined.

(** X12 on an example: a newcomer claims to be admin, then looks up its
    role. *)
Lemma newcomer_is_customer :
  let s1 := (serve dev new_year
               (anonymous POST_user
                  [("email", VStr "n@x.com"); ("role", VStr "admin")])
               staffed).2 in
  serve dev later
    {| target := GET_user_role "n@x.com"; cookies_token := None; body := [] |}
    s1
  = (Responded (send (Json (VObj [("role", VStr "customer")]))), s1).
Proof.
  exact (first_login_then_role_lookup dev new_year later
           (anonymous POST_user
              [("email", VStr "n@x.com"); ("role", VStr "admin")])
           staffed "n@x.com" None [] reference_matches_own_email
           eq_refl eq_refl eq_refl).
Defined.

(** X13 on an example: sam and alice both ask for alice's orders. *)
Lemma alice_orders_for_sam_and_alice :
  serve dev new_year
    (as_user "sam@x.com" (GET_orders_customer "a@x.com") []) staffed
  = serve dev later
      (as_user "a@x.com" (GET_orders_customer "a@x.com") []) staffed ∧
  serve dev new_year
    (as_user "sam@x.com" (GET_orders_customer "a@x.com") []) staffed
  = (Responded
       (send (Json (VArr (List.map VObj
          (Mongo.find (FEq "customer.email" (VStr "a@x.com"))
             (orders staffed)))))), staffed).
Proof.
  exact (customer_orders_for_any_caller dev new_year later
           (as_user "sam@x.com" (GET_orders_customer "a@x.com") [])
           (as_user "a@x.com" (GET_orders_customer "a@x.com") [])
           staffed "a@x.com" (claims_for "sam@x.com") (claims_for "a@x.com")
           eq_refl eq_refl eq_refl eq_refl).
Defined.

(** X14 on an example: the admin lists the users. *)
Lemma root_lists_the_others :
  ∃ listed,
    serve dev new_year (as_user "root@x.com" GET_all_users []) staffed
    = (Responded (send (Json (VArr (List.map VObj listed)))), staffed) ∧
    (∀ d, d ∈ listed →
          d ∈ users staffed ∧ Js.get "email" d ≠ Some (VStr "root@x.com")) ∧
    (∀ d, d ∈ users staffed →
          matches (FEq "email" (VStr "root@x.com")) d = false → d ∈ listed).
Proof.
  exact (all_users_excludes_the_caller dev new_year
           (as_user "root@x.com" GET_all_users []) staffed
           (claims_for "root@x.com") root "root@x.com"
           reference_matches_own_email reference_ne_negates_eq
           eq_refl eq_refl eq_refl eq_refl eq_refl).
Defined.

(** Sam's [POST /add-plant] passes the seller gate. *)
Lemma sam_is_approved (b : obj) :
  seller_approved dev new_year (as_user "sam@x.com" POST_add_plant b) staffed.
Proof. exists (claims_for "sam@x.com"), sam. repeat split. Defined.

(** X15 on an example: sam adds a fern. *)
Lemma fern_is_listed :
  (get_plants
     (serve dev new_year
        (as_user "sam@x.com" POST_add_plant [("name", VStr "fern")])
        staffed).2).1
  = Responded (send (Json (VArr [VObj [("name", VStr "fern")]]))).
Proof.
  exact (added_plant_is_listed dev new_year _ staffed
           (sam_is_approved [("name", VStr "fern")])).
Defined.

(** X16 on an example: a newcomer logs in, asks to sell, and is approved
    by the admin ten seconds later. *)
Lemma newcomer_becomes_seller :
  let s1 := (serve dev new_year
               (anonymous POST_user [("email", VStr "n@x.com")]) staffed).2 in
  let s2 := (serve dev new_year
               (as_user "n@x.com" (PATCH_became_seller_request "n@x.com") [])
               s1).2 in
  let s3 := (serve dev later
               (as_user "root@x.com" (PATCH_user_role_update "n@x.com")
                  [("role", VStr "seller")]) s2).2 in
  ∃ r1 r2 r3,
    users s1 = (users staffed ++ [r1])%list ∧
    users s2 = (users staffed ++ [r2])%list ∧
    users s3 = (users staffed ++ [r3])%list ∧
    Js.get "role" r1 = Some (VStr "customer") ∧
    Js.get "role" r2 = Some (VStr "customer") ∧
    Js.get "status" r2 = Some (VStr "requested") ∧
    Js.get "role" r3 = Some (VStr "seller") ∧
    Js.get "status" r3 = Some (VStr "verified") ∧
    Js.get "email" r3 = Some (VStr "n@x.com") ∧
    Js.get "created_at" r3 = Some (VStr "2025-01-01T00:00:00.000Z").
Proof.
  exact (promotion_workflow dev new_year new_year later
           (anonymous POST_user [("email", VStr "n@x.com")])
           (as_user "n@x.com" (PATCH_became_seller_request "n@x.com") [])
           (as_user "root@x.com" (PATCH_user_role_update "n@x.com")
              [("role", VStr "seller")])
           staffed "n@x.com" (claims_for "n@x.com") (claims_for "root@x.com")
           root reference_matches_own_email
           eq_refl eq_refl eq_refl eq_refl eq_refl eq_refl eq_refl eq_refl
           eq_refl).
Defined.

(** X17 on an example: two newcomers' logins for n@x.com overlap. *)
Lemma two_overlapping_newcomers :
  let b := [("email", VStr "n@x.com")] in
  let seen1 := post_user_lookup new_year b staffed in
  let seen2 := post_user_lookup later b staffed in
  let s1 := (post_user_resume new_year b seen1 staffed).2 in
  let s2 := (post_user_resume later b seen2 s1).2 in
  (∀ clk s0 c,
     post_user clk s0 c
     = post_user_resume clk (body (req c))
         (post_user_lookup clk (body (req c)) s0) s0) ∧
  emails (users s2)
    = (emails (users staffed) ++ [VStr "n@x.com"; VStr "n@x.com"])%list ∧
  ¬ NoDup (emails (users s2)).
Proof.
  exact (overlapping_first_logins_duplicate new_year later
           [("email", VStr "n@x.com")] [("email", VStr "n@x.com")] staffed
           "n@x.com" eq_refl eq_refl eq_refl).
Defined.

End MoreExamples.
